(** * claude-code-plus: the process supervisor and the alias resolver

    A shallow embedding of [src/ccp/mcp_server.py] (the alias resolver
    [get_mapped_model]) and of [src/ccp/cli.py] (the supervisor commands
    [start], [stop] and [status] with the liveness check
    [is_server_really_running]), followed by the properties proved of them.

    Python [str] values are modelled as [string] (a sequence of 8-bit
    characters); the case mapping, the whitespace class, the digits and
    the lengths are those of ASCII text ([is_ascii]). On text with other
    characters Python follows the Unicode tables ([str.lower] maps the
    Kelvin sign to 'k', [int] reads the digits of every script, [len]
    counts code points), which are not embedded here: a property that
    depends on them is stated for ASCII text.

    A command is a function from the state of the machine (the record
    file, the log file, the settings file, the process table) to a result
    (a value or a Python exception), the new state and the trace of what
    the command did: console output, programs run, signals, file
    operations. The outcomes of the external programs ([python3 -m venv],
    [pip], [uvicorn], [claude]) are inputs of [start]. *)

From Stdlib Require Import String Ascii List ZArith Bool Lia.
From Stdlib Require Import DecimalString DecimalZ DecimalPos.
Import ListNotations.

Local Open Scope string_scope.
Local Open Scope Z_scope.

(* ===================================================================== *)
(** * Part I. The model                                                   *)
(* ===================================================================== *)

(** ** Python string operations used by the two modules *)

Module PyStr.

(** The text holds ASCII characters only (code points below 128). *)
Definition is_ascii_char (c : ascii) : bool := Nat.ltb (nat_of_ascii c) 128.
Fixpoint is_ascii (s : string) : bool :=
  match s with
  | EmptyString => true
  | String c t => andb (is_ascii_char c) (is_ascii t)
  end.

(** [c.lower()] on one ASCII character: 'A'..'Z' move to 'a'..'z'. *)
Definition lower_char (c : ascii) : ascii :=
  let n := nat_of_ascii c in
  if andb (Nat.leb 65 n) (Nat.leb n 90) then ascii_of_nat (n + 32) else c.

(** [s.lower()] for ASCII text; other characters are left as they are. *)
Fixpoint lower (s : string) : string :=
  match s with
  | EmptyString => EmptyString
  | String c t => String (lower_char c) (lower t)
  end.

(** [s.startswith(p)] *)
Definition startswith (p s : string) : bool := String.prefix p s.

(** [needle in hay]: some suffix of [hay] starts with [needle]. *)
Fixpoint contains (needle hay : string) : bool :=
  if startswith needle hay then true
  else match hay with
       | EmptyString => false
       | String _ t => contains needle t
       end.

(** The mathematical notion [contains] decides. *)
Definition Substring (needle hay : string) : Prop :=
  exists pre post, hay = pre ++ needle ++ post.

(** [str.isspace] on one ASCII character: TAB, LF, VT, FF, CR, the four
    separators FS, GS, RS, US and the space. *)
Definition is_space (c : ascii) : bool :=
  let n := nat_of_ascii c in
  orb (andb (Nat.leb 9 n) (Nat.leb n 13))
      (orb (andb (Nat.leb 28 n) (Nat.leb n 31)) (Nat.eqb n 32)).

(** [s.lstrip()] *)
Fixpoint lstrip (s : string) : string :=
  match s with
  | EmptyString => EmptyString
  | String c t => if is_space c then lstrip t else s
  end.

(** [s.rstrip()]: a trailing run of whitespace is dropped. *)
Fixpoint rstrip (s : string) : string :=
  match s with
  | EmptyString => EmptyString
  | String c t =>
      match rstrip t with
      | EmptyString => if is_space c then EmptyString else String c EmptyString
      | t' => String c t'
      end
  end.

(** [s.strip()] for ASCII text *)
Definition strip (s : string) : string := rstrip (lstrip s).

(** [s.split(sep, 1)] for a one-character separator: [None] when [sep]
    does not occur (the result then has one element only), otherwise the
    text before and after the first occurrence. *)
Fixpoint split_once (sep : ascii) (s : string) : option (string * string) :=
  match s with
  | EmptyString => None
  | String c t =>
      if Ascii.eqb c sep then Some (EmptyString, t)
      else match split_once sep t with
           | Some (k, v) => Some (String c k, v)
           | None => None
           end
  end.

(** [len(s)] for ASCII text *)
Definition len (s : string) : Z := Z.of_nat (String.length s).

(** [s[:n]] for [n >= 0] *)
Definition slice_to (n : nat) (s : string) : string := String.substring 0 n s.

(** [s[-n:]] for [n > 0]: the last [n] characters, all of [s] when it is
    shorter. *)
Definition slice_last (n : nat) (s : string) : string :=
  String.substring (String.length s - n) n s.

(** [str(i)] for an integer. *)
Definition str_of_int (i : Z) : string := NilZero.string_of_int (Z.to_int i).

(** One decimal digit, as the constructor of [Decimal.uint] it stands for. *)
Definition digit_of_char (c : ascii) : option (Decimal.uint -> Decimal.uint) :=
  match c with
  | "0"%char => Some Decimal.D0 | "1"%char => Some Decimal.D1
  | "2"%char => Some Decimal.D2 | "3"%char => Some Decimal.D3
  | "4"%char => Some Decimal.D4 | "5"%char => Some Decimal.D5
  | "6"%char => Some Decimal.D6 | "7"%char => Some Decimal.D7
  | "8"%char => Some Decimal.D8 | "9"%char => Some Decimal.D9
  | _ => None
  end.

(** The digits of an integer literal as [int] accepts them: decimal
    digits, where a single underscore may stand between two digits.
    [after_digit] tells whether the previous character was a digit. *)
Fixpoint literal_digits (after_digit : bool) (s : string) : option Decimal.uint :=
  match s with
  | EmptyString => if after_digit then Some Decimal.Nil else None
  | String c t =>
      if Ascii.eqb c "_"%char
      then if after_digit then literal_digits false t else None
      else match digit_of_char c with
           | Some d => option_map d (literal_digits true t)
           | None => None
           end
  end.

(** [int(s)] in base 10 for ASCII text: surrounding whitespace is
    ignored, one sign is allowed, at least one digit is required. [None]
    stands for the [ValueError] Python raises. Python 3.11 and later also
    raise [ValueError] when the text has more than 4300 digits; that
    limit is not part of the function, see [int_text]. *)
Definition parse_int (s : string) : option Z :=
  match strip s with
  | String "-"%char t => option_map (fun d => Z.opp (Z.of_uint d)) (literal_digits false t)
  | String "+"%char t => option_map Z.of_uint (literal_digits false t)
  | t => option_map Z.of_uint (literal_digits false t)
  end.

(** A text on which [parse_int] is Python's [int]: ASCII characters,
    and short enough for the limit on the digits of an integer text. *)
Definition int_text (s : string) : bool :=
  andb (is_ascii s) (Nat.leb (String.length s) 4300).

End PyStr.

(** ** src/ccp/mcp_server.py *)

Module McpServer.
Import PyStr.

(** The process environment after [load_dotenv()]. *)
Definition Environ := string -> option string.

(** [os.environ.get(key, default)] *)
Definition environ_get (env : Environ) (key default : string) : string :=
  match env key with Some v => v | None => default end.

(** The module-level constants of the model mapping. *)
Record Config := mkConfig {
  PREFERRED_PROVIDER : string;
  BIG_MODEL : string;
  SMALL_MODEL : string
}.

(** Lines 27-29: the constants as the module computes them when it is
    loaded; the provider name is lower-cased there. *)
Definition load_config (env : Environ) : Config :=
  {| PREFERRED_PROVIDER := lower (environ_get env "PREFERRED_PROVIDER" "openai");
     BIG_MODEL := environ_get env "BIG_MODEL" "gpt-4.1";
     SMALL_MODEL := environ_get env "SMALL_MODEL" "gpt-4.1-mini" |}.

(** Lines 31-38. *)
Definition get_mapped_model (cfg : Config) (model_alias : string) : string :=
  if contains "haiku" (lower model_alias) then
    if String.eqb (PREFERRED_PROVIDER cfg) "google"
    then "gemini/" ++ SMALL_MODEL cfg
    else "openai/" ++ SMALL_MODEL cfg
  else if contains "sonnet" (lower model_alias) then
    if String.eqb (PREFERRED_PROVIDER cfg) "google"
    then "gemini/" ++ BIG_MODEL cfg
    else "openai/" ++ BIG_MODEL cfg
  else model_alias.

End McpServer.

(** ** src/ccp/cli.py: the world the commands act on *)

Module Cli.
Import PyStr.

(** The two signals the module passes to [os.kill]: [0], the probe that
    delivers nothing, and [signal.SIGTERM]. *)
Inductive Signal := SIG0 | SIGTERM.

(** What the kernel answers to [kill(pid, sig)]: the target exists and may
    be signalled, and it is not the caller ([Delivered]); there is no
    such process ([ESRCH]); it exists and belongs to somebody else
    ([EPERM]); or the caller itself is the target or among the targets
    ([ReachesCaller]): that is the answer for process id 0 (the caller's
    process group), for the caller's own id and for the group it is in. *)
Inductive KillAnswer := Delivered | NoSuchProcess | NotPermitted | ReachesCaller.

(** The exceptions that travel through the commands. [SystemExit] and
    [KeyboardInterrupt] are the two that [except Exception] lets pass.
    The others carry the text [str(e)] gives. [Terminated] is no
    exception: the interpreter was ended by SIGTERM, for which Python
    installs no handler. Nothing of the program runs after it, no
    [except] clause and no [finally] block. *)
Inductive Exn :=
| Terminated
| SystemExit (code : Z)
| KeyboardInterrupt
| ValueError (text : string)
| FileNotFoundError (text : string)
| ProcessLookupError (text : string)
| PermissionError (text : string)
| OverflowError (text : string)
| CalledProcessError (text : string) (stderr : string)
| OtherException (text : string).

(** [isinstance(e, Exception)] *)
Definition is_Exception (e : Exn) : bool :=
  match e with
  | Terminated | SystemExit _ | KeyboardInterrupt => false
  | _ => true
  end.

(** [str(e)] *)
Definition exn_str (e : Exn) : string :=
  match e with
  | SystemExit code => str_of_int code
  | Terminated | KeyboardInterrupt => ""
  | ValueError t | FileNotFoundError t | ProcessLookupError t
  | PermissionError t | OverflowError t | CalledProcessError t _
  | OtherException t => t
  end.

(** The two files of the supervisor, at fixed paths under the working
    directory (lines 17-18). *)
Inductive File := PID_FILE | LOG_FILE.

(** The part of the machine the commands read and change. A file is
    [None] when it does not exist, otherwise its content. Reading a file
    that is there, and creating, rewriting or removing one, succeed:
    permissions on the working directory and full disks are left out. *)
Record World := mkWorld {
  pid_file : option string;        (* .ccp.pid *)
  log_file : option string;        (* .ccp.log *)
  log_path : string;               (* str(LOG_FILE) *)
  dotenv_file : option string;     (* the .env file find_dotenv() locates *)
  venv_isdir : bool;               (* os.path.isdir(".venv") *)
  kernel : Z -> KillAnswer         (* the process table, as kill(2) sees it *)
}.

Definition set_pid_file (c : option string) (w : World) : World :=
  mkWorld c (log_file w) (log_path w) (dotenv_file w) (venv_isdir w) (kernel w).
Definition set_log_file (c : option string) (w : World) : World :=
  mkWorld (pid_file w) c (log_path w) (dotenv_file w) (venv_isdir w) (kernel w).
Definition set_venv_isdir (b : bool) (w : World) : World :=
  mkWorld (pid_file w) (log_file w) (log_path w) (dotenv_file w) b (kernel w).
Definition set_kernel (k : Z -> KillAnswer) (w : World) : World :=
  mkWorld (pid_file w) (log_file w) (log_path w) (dotenv_file w) (venv_isdir w) k.

(** How a program run with [subprocess.run] ends: it completes with a
    return code (and, when captured, its standard error text), or the
    call itself raises (the executable is missing, the user interrupts). *)
Inductive RunResult :=
| Completed (returncode : Z) (stderr : string)
| RunRaises (e : Exn).

(** How [subprocess.Popen] ends: a child with a process id, or an
    exception. *)
Inductive PopenResult :=
| Started (pid : Z)
| PopenRaises (e : Exn).

(** The outcomes of the external programs one call of [start] may use. *)
Record Externals := mkExternals {
  run_venv : RunResult;          (* python3 -m venv .venv *)
  run_pip : RunResult;           (* .venv/bin/pip install -e . *)
  run_server : RunResult;        (* uvicorn in the foreground *)
  popen_server : PopenResult;    (* uvicorn in the background *)
  which_claude : bool;           (* shutil.which("claude") finds it *)
  run_claude : RunResult         (* the claude client *)
}.

(** What a command does that can be observed from outside, in order. *)
Inductive Event :=
| Rule (title : string)                           (* console.rule *)
| Out (text : string)                             (* console.print *)
| Err (text : string)                             (* error_console.print *)
| Run (argv : list string) (env : list (string * string))   (* subprocess.run *)
| Popen (argv : list string)                      (* subprocess.Popen *)
| Kill (pid : Z) (sig : Signal)                   (* os.kill *)
| Sleep (seconds : Z)                             (* time.sleep *)
| FsWrite (f : File) (content : string)           (* a file created or rewritten *)
| FsUnlink (f : File).                            (* a file removed *)

(** ** The monad of commands: a world, exceptions and a trace *)

Inductive Result (A : Type) :=
| Ok (a : A)
| Raised (e : Exn).
Arguments Ok {A} a.
Arguments Raised {A} e.

Definition M (A : Type) : Type := World -> Result A * World * list Event.

(** The three parts of a run. *)
Definition result_of {A} (x : Result A * World * list Event) : Result A := fst (fst x).
Definition world_of {A} (x : Result A * World * list Event) : World := snd (fst x).
Definition trace_of {A} (x : Result A * World * list Event) : list Event := snd x.

Definition ret {A} (a : A) : M A := fun w => (Ok a, w, []).

Definition bind {A B} (m : M A) (k : A -> M B) : M B :=
  fun w =>
    match m w with
    | (Ok a, w1, t1) =>
        match k a w1 with
        | (r, w2, t2) => (r, w2, (t1 ++ t2)%list)
        end
    | (Raised e, w1, t1) => (Raised e, w1, t1)
    end.

Definition raise {A} (e : Exn) : M A := fun w => (Raised e, w, []).
Definition emit (ev : Event) : M unit := fun w => (Ok tt, w, [ev]).
Definition gets {A} (f : World -> A) : M A := fun w => (Ok (f w), w, []).
Definition modify (f : World -> World) : M unit := fun w => (Ok tt, f w, []).

Declare Scope cmd_scope.
Delimit Scope cmd_scope with cmd.
Notation "x <- m ;; k" := (bind m (fun x => k))
  (at level 61, m at next level, right associativity) : cmd_scope.
Notation "m ;; k" := (bind m (fun _ => k))
  (at level 61, right associativity) : cmd_scope.
Local Open Scope cmd_scope.

(** [try: body / except ...: handler]. [handler e] is [None] when no
    [except] clause matches [e], which then keeps travelling. *)
Definition try_except {A} (body : M A) (handler : Exn -> option (M A)) : M A :=
  fun w =>
    match body w with
    | (Ok a, w1, t1) => (Ok a, w1, t1)
    | (Raised Terminated, w1, t1) => (Raised Terminated, w1, t1)
    | (Raised e, w1, t1) =>
        match handler e with
        | Some h => match h w1 with (r, w2, t2) => (r, w2, (t1 ++ t2)%list) end
        | None => (Raised e, w1, t1)
        end
    end.

(** [try: body / finally: cleanup]. The cleanup runs on every way out of
    the body; an exception of the cleanup replaces the pending one. When
    the interpreter was ended inside the body there is no way out. *)
Definition try_finally {A} (body : M A) (cleanup : M unit) : M A :=
  fun w =>
    match body w with
    | (Raised Terminated, w1, t1) => (Raised Terminated, w1, t1)
    | (r, w1, t1) =>
        match cleanup w1 with
        | (Ok _, w2, t2) => (r, w2, (t1 ++ t2)%list)
        | (Raised e, w2, t2) => (Raised e, w2, (t1 ++ t2)%list)
        end
    end.

(** [sys.exit(code)] *)
Definition sys_exit {A} (code : Z) : M A := raise (SystemExit code).

(** ** Helper functions (lines 21-31) *)

Definition print_info (message : string) : M unit :=
  emit (Out ("[bold blue][INFO][/bold blue] " ++ message)).
Definition print_success (message : string) : M unit :=
  emit (Out ("[bold green][SUCCESS][/bold green] " ++ message)).
Definition print_warning (message : string) : M unit :=
  emit (Out ("[bold yellow][WARNING][/bold yellow] " ++ message)).
Definition print_error (message : string) : M unit :=
  emit (Err ("[bold red][ERROR][/bold red] " ++ message)).
(** [console.print(text)]. The event holds the text handed to rich,
    markup included. rich raises [MarkupError] on a closing tag that
    closes nothing (a text such as "[/bar]"); the texts of the program
    itself are well-formed, and a property that prints text from a file
    or a path is stated for text without '[' ([markup_free] below). *)
Definition console_print (text : string) : M unit := emit (Out text).
Definition console_rule (title : string) : M unit := emit (Rule title).

(** ** The operating system and the file system *)

(** The values a C [pid_t], a signed 32-bit integer, can hold. *)
Definition pid_t_ok (pid : Z) : bool :=
  andb (Z.leb (- 2147483648) pid) (Z.leb pid 2147483647).

(** The text of the [OverflowError] for a process id no [pid_t] holds:
    the argument is read as a C [long] (64 bits) first and then checked
    against the range of [int]. *)
Definition pid_overflow_text (pid : Z) : string :=
  if andb (Z.leb (- 9223372036854775808) pid) (Z.leb pid 9223372036854775807)
  then if Z.ltb pid 0 then "signed integer is less than minimum"
       else "signed integer is greater than maximum"
  else "Python int too large to convert to C long".

(** [os.kill(pid, sig)]. The event records the call. The process id is
    converted to a [pid_t]: a Python integer outside its range raises
    [OverflowError] before any system call is made. Otherwise the system
    call is made and the kernel's answer decides. A signal is a request:
    the process table is not changed by the call. Process ids of zero and
    below address process groups; the kernel's answer is taken as given
    for them too. When the caller is among the targets, signal 0 tells
    it so and SIGTERM ends it inside the call. *)
Definition os_kill (pid : Z) (sig : Signal) : M unit :=
  emit (Kill pid sig) ;;
  if pid_t_ok pid then
    answer <- gets (fun w => kernel w pid) ;;
    match answer with
    | Delivered => ret tt
    | NoSuchProcess => raise (ProcessLookupError "[Errno 3] No such process")
    | NotPermitted => raise (PermissionError "[Errno 1] Operation not permitted")
    | ReachesCaller =>
        match sig with
        | SIG0 => ret tt
        | SIGTERM => raise Terminated
        end
    end
  else raise (OverflowError (pid_overflow_text pid)).

(** [PID_FILE.exists()] and [LOG_FILE.exists()] *)
Definition exists_file (f : File) : M bool :=
  gets (fun w => match f with
                 | PID_FILE => match pid_file w with Some _ => true | None => false end
                 | LOG_FILE => match log_file w with Some _ => true | None => false end
                 end).

(** [with open(PID_FILE, "r") as f: f.read()] *)
Definition read_pid_file : M string :=
  c <- gets pid_file ;;
  match c with
  | Some s => ret s
  | None => raise (FileNotFoundError "[Errno 2] No such file or directory: '.ccp.pid'")
  end.

(** [PID_FILE.unlink()] *)
Definition unlink_pid_file : M unit :=
  c <- gets pid_file ;;
  match c with
  | Some _ => modify (set_pid_file None) ;; emit (FsUnlink PID_FILE)
  | None => raise (FileNotFoundError "[Errno 2] No such file or directory: '.ccp.pid'")
  end.

(** [with open(PID_FILE, "w") as f: f.write(text)] *)
Definition write_pid_file (text : string) : M unit :=
  modify (set_pid_file (Some text)) ;; emit (FsWrite PID_FILE text).

(** [open(LOG_FILE, "wb")]: the file is created, or cut to length zero
    when it exists. *)
Definition open_log_file_wb : M unit :=
  modify (set_log_file (Some "")) ;; emit (FsWrite LOG_FILE "").

(** [int(text)], raising [ValueError] *)
Definition int_of (text : string) : M Z :=
  match parse_int text with
  | Some i => ret i
  | None => raise (ValueError ("invalid literal for int() with base 10: '" ++ text ++ "'"))
  end.

(** [repr] of a list of plain words, as [CalledProcessError] prints its
    command. *)
Definition repr_argv (argv : list string) : string :=
  "[" ++ String.concat ", " (map (fun a => "'" ++ a ++ "'") argv) ++ "]".

(** [subprocess.run(argv, check=check, env=env)] with the outcome [r] of
    the program. With [check], a return code other than zero raises
    [CalledProcessError]. Its text is the one of a positive return code;
    for a program ended by a signal (a negative code) Python names the
    signal instead, and no property below states that text. *)
Definition subprocess_run (argv : list string) (env : list (string * string))
           (check : bool) (r : RunResult) : M unit :=
  emit (Run argv env) ;;
  match r with
  | Completed rc stderr =>
      if andb check (negb (Z.eqb rc 0))
      then raise (CalledProcessError
                    ("Command '" ++ repr_argv argv ++ "' returned non-zero exit status "
                       ++ str_of_int rc ++ ".") stderr)
      else ret tt
  | RunRaises e => raise e
  end.

(** [subprocess.Popen(argv, stdout=log_file, stderr=log_file)]: on
    success the child is a live process of ours. *)
Definition subprocess_Popen (argv : list string) (r : PopenResult) : M Z :=
  emit (Popen argv) ;;
  match r with
  | Started pid =>
      modify (fun w => set_kernel (fun p => if Z.eqb p pid then Delivered else kernel w p) w) ;;
      ret pid
  | PopenRaises e => raise e
  end.

(** ** The liveness check (lines 44-62) *)

Definition is_server_really_running : M bool :=
  present <- exists_file PID_FILE ;;
  if negb present then ret false
  else
    try_except
      (text <- read_pid_file ;;
       pid <- int_of (strip text) ;;
       os_kill pid SIG0 ;;
       ret true)
      (fun e =>
         match e with
         | ValueError _ | FileNotFoundError _ | ProcessLookupError _ =>
             Some (print_warning "Stale PID file found. Cleaning up." ;;
                   unlink_pid_file ;;
                   ret false)
         | _ => None
         end).

(** ** The configuration display (lines 408-427) *)

Definition CR : ascii := ascii_of_nat 13.
Definition LF : ascii := ascii_of_nat 10.

(** Text mode reads with universal newlines: CR LF and a lone CR both
    arrive as LF. *)
Fixpoint universal_newlines (s : string) : string :=
  match s with
  | EmptyString => EmptyString
  | String c t =>
      if Ascii.eqb c CR then
        match t with
        | String c' t' =>
            if Ascii.eqb c' LF then String LF (universal_newlines t')
            else String LF (universal_newlines t)
        | EmptyString => String LF EmptyString
        end
      else String c (universal_newlines t)
  end.

(** The lines of a text, each with its closing LF when it has one. *)
Fixpoint split_lines (s : string) : list string :=
  match s with
  | EmptyString => []
  | String c t =>
      if Ascii.eqb c LF then String LF EmptyString :: split_lines t
      else match split_lines t with
           | [] => [String c EmptyString]
           | l :: ls => String c l :: ls
           end
  end.

(** [f.readlines()] *)
Definition readlines (content : string) : list string :=
  split_lines (universal_newlines content).

(** The body of the loop over the lines: what is handed to
    [console.print] for one line of the settings file, [None] when the
    line is skipped ([continue]). The unpacking of [line.split('=', 1)]
    raises [ValueError] when there is no ['=']; the handler prints the
    line. *)
Definition display_line (line : string) : option string :=
  let line := strip line in
  if orb (String.eqb line "") (startswith "#" line) then None
  else
    match split_once "="%char line with
    | Some (key, value) =>
        if andb (contains "API_KEY" key) (Z.ltb 8 (len value))
        then
          let masked_value := "'" ++ slice_to 4 value ++ "..." ++ slice_last 4 value ++ "'" in
          Some (key ++ "=" ++ masked_value)
        else Some line
    | None => Some line
    end.

Fixpoint display_lines (lines : list string) : M unit :=
  match lines with
  | [] => ret tt
  | line :: rest =>
      match display_line line with
      | Some text => console_print text ;; display_lines rest
      | None => display_lines rest
      end
  end.

(** ** status (lines 383-427) *)

(** Lines 401-427: the configuration part. *)
Definition show_configuration : M unit :=
  console_print (String LF "[bold]Configuration[/bold]") ;;
  env <- gets dotenv_file ;;
  match env with
  | None => print_warning "No .env file found. Run 'ccp init' to create one."
  | Some content =>
      let lines := readlines content in
      match lines with
      | [] => print_warning "'.env' file is empty. Run 'ccp init' to configure."
      | _ => display_lines lines
      end
  end.

Definition status : M unit :=
  console_rule "[bold]Claude Code Plus Status[/bold]" ;;
  console_print "[bold]Server Status[/bold]" ;;
  running <- is_server_really_running ;;
  (if running then
     text <- read_pid_file ;;
     pid <- int_of (strip text) ;;
     print_success ("Running (PID: " ++ str_of_int pid ++ ")") ;;
     console_print "Address: http://localhost:8082" ;;
     has_log <- exists_file LOG_FILE ;;
     if has_log then
       path <- gets log_path ;;
       console_print ("Log File: " ++ path)
     else ret tt
   else print_info "Stopped") ;;
  show_configuration.

(** ** stop (lines 278-307) *)

Definition stop : M unit :=
  console_rule "[bold]Stopping Server[/bold]" ;;
  present <- exists_file PID_FILE ;;
  (if negb present then
     print_warning "PID file not found. Is the server running?" ;;
     sys_exit 1
   else ret tt) ;;
  pid <- try_except
           (text <- read_pid_file ;;
            int_of (strip text))
           (fun e =>
              match e with
              | ValueError _ | FileNotFoundError _ =>
                  Some (print_error "Could not read PID from file. It might be corrupted." ;;
                        unlink_pid_file ;;
                        sys_exit 1)
              | _ => None
              end) ;;
  try_finally
    (try_except
       (os_kill pid SIGTERM ;;
        print_info ("Sent stop signal to process with PID: " ++ str_of_int pid))
       (fun e =>
          match e with
          | ProcessLookupError _ =>
              Some (print_warning ("Process with PID " ++ str_of_int pid
                                     ++ " not found. It may have already stopped."))
          | _ =>
              if is_Exception e
              then Some (print_error ("Failed to stop server: " ++ exn_str e) ;;
                         sys_exit 1)
              else None
          end))
    (unlink_pid_file ;;
     print_success "Server stopped and PID file removed.").

(** ** start (lines 142-275) *)

Definition venv_dir : string := ".venv".

(** [os.path.join(venv_dir, "bin", name)] *)
Definition venv_bin (name : string) : string := venv_dir ++ "/bin/" ++ name.

(** Lines 203-211. *)
Definition command : list string :=
  [venv_bin "uvicorn"; "src.ccp.server:app"; "--host"; "0.0.0.0"; "--port"; "8082"].

Definition connect_hint : string :=
  String LF "    [bold cyan]ANTHROPIC_BASE_URL=http://localhost:8082 claude[/bold cyan]"
    ++ String LF "".

(** Lines 177-200: the environment and dependency setup. *)
Definition setup_environment (ext : Externals) : M unit :=
  isdir <- gets venv_isdir ;;
  (if negb isdir then
     print_warning "Virtual environment not found. Creating one..." ;;
     try_except
       (subprocess_run ["python3"; "-m"; "venv"; venv_dir] [] true (run_venv ext) ;;
        modify (set_venv_isdir true) ;;
        print_success ("Virtual environment created at '" ++ venv_dir ++ "'."))
       (fun e =>
          match e with
          | CalledProcessError _ _ =>
              Some (print_error ("Failed to create virtual environment: " ++ exn_str e) ;;
                    sys_exit 1)
          | _ => None
          end)
   else ret tt) ;;
  print_info "Installing/updating dependencies..." ;;
  try_except
    (subprocess_run [venv_bin "pip"; "install"; "-e"; "."] [] true (run_pip ext) ;;
     print_success "Dependencies are up to date.")
    (fun e =>
       match e with
       | CalledProcessError _ stderr =>
           Some (print_error ("Failed to install dependencies: " ++ stderr) ;;
                 sys_exit 1)
       | _ => None
       end).

(** Lines 213-224: the server in the foreground. *)
Definition run_foreground (ext : Externals) : M unit :=
  print_info "Starting server in foreground..." ;;
  print_info "Run the following command in a new terminal to connect your client:" ;;
  console_print connect_hint ;;
  try_except
    (subprocess_run (command ++ ["--reload"; "--reload-dir"; "src"]) [] false (run_server ext))
    (fun e =>
       match e with
       | KeyboardInterrupt => Some (print_info (String LF "Server stopped by user."))
       | _ =>
           if is_Exception e
           then Some (print_error ("Failed to start server: " ++ exn_str e) ;;
                      sys_exit 1)
           else None
       end).

(** Lines 226-247: the server in the background. The log file is opened
    with mode ["wb"] before the child is created; the record is written
    after it. *)
Definition run_background (ext : Externals) : M unit :=
  print_info "Starting server in background..." ;;
  try_except
    (open_log_file_wb ;;
     pid <- subprocess_Popen command (popen_server ext) ;;
     write_pid_file (str_of_int pid) ;;
     print_success ("Server started in background with PID: " ++ str_of_int pid) ;;
     print_info "Run the following command in a new terminal to connect your client:" ;;
     console_print connect_hint ;;
     print_info "Server is running at: http://localhost:8082" ;;
     path <- gets log_path ;;
     print_info ("Logs are being written to: " ++ path) ;;
     print_info "Use 'ccp logs' to view logs or 'ccp stop' to stop the server.")
    (fun e =>
       if is_Exception e
       then Some (print_error ("Failed to start server in background: " ++ exn_str e) ;;
                  sys_exit 1)
       else None).

(** Lines 249-275: the client. *)
Definition launch_client (ext : Externals) : M unit :=
  print_info "Launching Claude Code client..." ;;
  emit (Sleep 2) ;;
  (if negb (which_claude ext) then
     print_error "The 'claude' command was not found in your PATH." ;;
     print_info "Please ensure you have run 'npm install -g @anthropic-ai/claude-code'." ;;
     print_info "The server is still running. Use 'ccp stop' to stop it." ;;
     sys_exit 1
   else ret tt) ;;
  try_finally
    (try_except
       (subprocess_run ["claude"] [("ANTHROPIC_BASE_URL", "http://localhost:8082")]
                       true (run_claude ext))
       (fun e =>
          match e with
          | KeyboardInterrupt =>
              Some (print_info (String LF "Claude Code client stopped by user."))
          | CalledProcessError _ _ =>
              Some (print_error ("Claude Code client exited with an error: " ++ exn_str e))
          | _ =>
              if is_Exception e
              then Some (print_error ("Failed to launch Claude Code client: " ++ exn_str e))
              else None
          end))
    (print_info "The proxy server is still running in the background." ;;
     print_info "Run 'ccp stop' to shut it down.").

(** The command. The branch of lines 176-247 yields [true] where the
    source leaves the function with [return] (after a foreground run),
    so that the client part below it is not reached. *)
Definition start (foreground auto : bool) (ext : Externals) : M unit :=
  console_rule "[bold]Starting Server[/bold]" ;;
  (if andb foreground auto then
     print_error "The --foreground and --auto flags cannot be used together." ;;
     sys_exit 1
   else ret tt) ;;
  running <- is_server_really_running ;;
  returned <-
    (if running then
       (if negb auto then
          print_info "Server is already running. Displaying status:" ;;
          status ;;
          sys_exit 0
        else ret tt) ;;
       ret false
     else
       setup_environment ext ;;
       if foreground then
         run_foreground ext ;;
         ret true
       else
         run_background ext ;;
         ret false) ;;
  if returned then ret tt
  else if auto then launch_client ext
  else ret tt.

End Cli.

(** ** The vocabulary of the properties *)

Module Vocabulary.
Import PyStr McpServer Cli.
Local Open Scope list_scope.

(** *** Alias resolver *)

(** The provider prefix the resolver puts before a model name. *)
Definition provider_prefix (cfg : Config) : string :=
  if String.eqb (PREFERRED_PROVIDER cfg) "google" then "gemini" else "openai".

(** The settings of the examples: the defaults of the module, and the
    secondary provider chosen in the environment. *)
Definition default_config : Config := load_config (fun _ => None).
Definition google_config : Config :=
  load_config (fun k => if String.eqb k "PREFERRED_PROVIDER" then Some "Google" else None).

(** *** Classes of events *)

(** Events that only report to the console or probe a process. *)
Definition reports_only (ev : Event) : bool :=
  match ev with
  | Rule _ | Out _ | Err _ | Kill _ SIG0 => true
  | _ => false
  end.

(** What the liveness check emits: the probe, the warning, the removal
    of the stale record. *)
Definition probe_or_cleanup (ev : Event) : bool :=
  match ev with
  | Out _ | Kill _ SIG0 | FsUnlink PID_FILE => true
  | _ => false
  end.

(** What the setup and the client part emit: console lines, programs run
    to their end, the pause. *)
Definition console_or_run (ev : Event) : bool :=
  match ev with
  | Rule _ | Out _ | Err _ | Run _ _ | Sleep _ => true
  | _ => false
  end.

Definition is_fs (ev : Event) : bool :=
  match ev with FsWrite _ _ | FsUnlink _ => true | _ => false end.
Definition is_setup_or_launch (ev : Event) : bool :=
  match ev with Run _ _ | Popen _ => true | _ => false end.
Definition is_launch (ev : Event) : bool :=
  match ev with Popen _ => true | _ => false end.

(** *** Lines and blocks of the traces *)

Definition stale_warning : Event :=
  Out "[bold yellow][WARNING][/bold yellow] Stale PID file found. Cleaning up.".

Definition status_heading : list Event :=
  [Rule "[bold]Claude Code Plus Status[/bold]"; Out "[bold]Server Status[/bold]"].

Definition stopped_line : Event := Out "[bold blue][INFO][/bold blue] Stopped".

Definition running_lines (w : World) (pid : Z) : list Event :=
  [Out ("[bold green][SUCCESS][/bold green] Running (PID: " ++ str_of_int pid ++ ")");
   Out "Address: http://localhost:8082"]
  ++ match log_file w with
     | Some _ => [Out ("Log File: " ++ log_path w)]
     | None => []
     end.

Definition stop_heading : Event := Rule "[bold]Stopping Server[/bold]".

Definition not_running_line : Event :=
  Out "[bold yellow][WARNING][/bold yellow] PID file not found. Is the server running?".

Definition corrupt_line : Event :=
  Err "[bold red][ERROR][/bold red] Could not read PID from file. It might be corrupted.".

Definition signal_sent_line (pid : Z) : Event :=
  Out ("[bold blue][INFO][/bold blue] Sent stop signal to process with PID: "
         ++ str_of_int pid).

Definition already_dead_line (pid : Z) : Event :=
  Out ("[bold yellow][WARNING][/bold yellow] Process with PID "
         ++ str_of_int pid ++ " not found. It may have already stopped.").

Definition stop_failed_line (text : string) : Event :=
  Err ("[bold red][ERROR][/bold red] Failed to stop server: " ++ text).

Definition stop_closing : list Event :=
  [FsUnlink PID_FILE;
   Out "[bold green][SUCCESS][/bold green] Server stopped and PID file removed."].

Definition start_heading : Event := Rule "[bold]Starting Server[/bold]".

Definition conflict_line : Event :=
  Err "[bold red][ERROR][/bold red] The --foreground and --auto flags cannot be used together.".

Definition background_heading : Event :=
  Out "[bold blue][INFO][/bold blue] Starting server in background...".

Definition already_running_line : Event :=
  Out "[bold blue][INFO][/bold blue] Server is already running. Displaying status:".

Definition configuration_heading : Event :=
  Out (String LF "[bold]Configuration[/bold]").

Definition empty_settings_line : Event :=
  Out "[bold yellow][WARNING][/bold yellow] '.env' file is empty. Run 'ccp init' to configure.".

(** The texts the configuration display hands to the console for the
    lines of a settings file, in order; a skipped line gives none. *)
Fixpoint displayed (lines : list string) : list string :=
  match lines with
  | [] => []
  | line :: rest =>
      match display_line line with
      | Some text => text :: displayed rest
      | None => displayed rest
      end
  end.

Definition no_settings_line : Event :=
  Out "[bold yellow][WARNING][/bold yellow] No .env file found. Run 'ccp init' to create one.".

(** What the configuration part of [status] prints: its heading, then
    the warning when no settings file is found or the file has no line,
    otherwise the displayed texts of its lines. *)
Definition configuration_lines (w : World) : list Event :=
  configuration_heading
    :: match dotenv_file w with
       | None => [no_settings_line]
       | Some content =>
           match readlines content with
           | [] => [empty_settings_line]
           | l :: ls => map Out (displayed (l :: ls))
           end
       end.

(** What a [start] without [--auto] prints and does when the server it
    tracks, process [pid], is alive: its heading and the probe, the
    "already running" line, then the whole status report. *)
Definition already_running_report (w : World) (pid : Z) : list Event :=
  start_heading :: Kill pid SIG0 :: already_running_line
    :: status_heading ++ Kill pid SIG0 :: running_lines w pid ++ configuration_lines w.

(** *** Text as Python and rich take it *)

(** A text without '[' holds no markup: rich prints it as it is and
    cannot fail on it. *)
Definition markup_free (s : string) : bool := negb (contains "[" s).

(** What [status] prints from the machine is text the model takes as
    Python and rich do: the path of the log file holds no markup, the
    settings file holds no markup and ASCII characters only. *)
Definition plain_console (w : World) : bool :=
  andb (markup_free (log_path w))
       (match dotenv_file w with
        | Some content => andb (is_ascii content) (markup_free content)
        | None => true
        end).

(** The record, when there is one, is a text on which [parse_int] is
    Python's [int]. *)
Definition plain_record (w : World) : bool :=
  match pid_file w with
  | Some text => int_text text
  | None => true
  end.

(** The kernel takes process id 0 as every kernel does: it is the
    process group of the caller. *)
Definition own_group (w : World) : Prop := kernel w 0 = ReachesCaller.

(** *** Worlds *)

(** The world a successful background launch leaves. *)
Definition launched (pid : Z) (w : World) : World :=
  set_pid_file (Some (str_of_int pid))
    (set_kernel (fun p => if Z.eqb p pid then Delivered else kernel w p)
       (set_log_file (Some "") w)).


(** The machine of the examples: process id 0 is the group of the
    caller, process 1 belongs to root, process 4242 is ours, nothing else
    is alive. *)
Definition example_kernel (pid : Z) : KillAnswer :=
  if Z.eqb pid 0 then ReachesCaller
  else if Z.eqb pid 1 then NotPermitted
  else if Z.eqb pid 4242 then Delivered
  else NoSuchProcess.

Definition example_dotenv : string :=
  "OPENAI_API_KEY=sk-0123456789abcdefghijklmnopqrs" ++ String LF
    ("PREFERRED_PROVIDER=google" ++ String LF "").

Definition example_world (record log : option string) : World :=
  mkWorld record log "/srv/app/.ccp.log" (Some example_dotenv) true example_kernel.

(** Every external program does its work; the server gets process id
    5151. *)
Definition ext_ok : Externals :=
  mkExternals (Completed 0 "") (Completed 0 "") (Completed 0 "")
              (Started 5151) true (Completed 0 "").


End Vocabulary.

(** ** More vocabulary: the supervisor beyond the specification *)

Module MoreVocabulary.
Import PyStr Cli Vocabulary.
Local Open Scope list_scope.

(** A file is created or rewritten. *)
Definition is_write (ev : Event) : bool :=
  match ev with FsWrite _ _ => true | _ => false end.

(** A termination signal is sent. *)
Definition is_sigterm (ev : Event) : bool :=
  match ev with Kill _ SIGTERM => true | _ => false end.

(** What [status] may do: print, probe, remove a stale record. *)
Definition report_or_cleanup (ev : Event) : bool :=
  match ev with
  | Rule _ | Out _ | Err _ | Kill _ SIG0 | FsUnlink PID_FILE => true
  | _ => false
  end.

(** What a foreground [start] may do: print, probe, remove a stale
    record, run programs to their end. *)
Definition foreground_event (ev : Event) : bool :=
  match ev with
  | Rule _ | Out _ | Err _ | Kill _ SIG0 | FsUnlink PID_FILE | Run _ _ => true
  | _ => false
  end.


(** The record names a live process that may be signalled. *)
Definition tracked_alive (w : World) (pid : Z) : Prop :=
  exists text, pid_file w = Some text /\ parse_int (strip text) = Some pid
               /\ pid_t_ok pid = true /\ kernel w pid = Delivered.

Definition foreground_command : list string :=
  command ++ ["--reload"; "--reload-dir"; "src"].
Definition client_run : Event :=
  Run ["claude"] [("ANTHROPIC_BASE_URL", "http://localhost:8082")].

(** The client ends in a way [start] takes as ordinary: it exits with
    any status, the user interrupts it, or it fails with an [Exception]. *)
Definition ordinary_end (r : RunResult) : bool :=
  match r with
  | RunRaises (SystemExit _) | RunRaises Terminated => false
  | _ => true
  end.

Definition client_heading : list Event :=
  [Out "[bold blue][INFO][/bold blue] Launching Claude Code client..."; Sleep 2].

Definition client_closing : list Event :=
  [Out "[bold blue][INFO][/bold blue] The proxy server is still running in the background.";
   Out "[bold blue][INFO][/bold blue] Run 'ccp stop' to shut it down."].






End MoreVocabulary.

(** ** src/ccp/cli.py: the remaining commands on the supervisor's world *)

Module CliRest.
Import PyStr Cli.
Local Open Scope cmd_scope.

(** logs (lines 310-331). [run_tail] is how [tail -f] ends. *)
Definition logs (run_tail : RunResult) : M unit :=
  console_rule "[bold]Server Logs[/bold]" ;;
  present <- exists_file LOG_FILE ;;
  (if negb present then
     path <- gets log_path ;;
     print_warning ("Log file not found: " ++ path) ;;
     print_info "Start the server in the background first with 'ccp start'." ;;
     sys_exit 1
   else ret tt) ;;
  try_except
    (path <- gets log_path ;;
     print_info ("Following logs from " ++ path ++ ". Press Ctrl+C to stop.") ;;
     subprocess_run ["tail"; "-f"; path] [] false run_tail)
    (fun e =>
       match e with
       | FileNotFoundError _ =>
           Some (print_error
                   "The 'tail' command was not found. This feature is not available on your system." ;;
                 sys_exit 1)
       | KeyboardInterrupt =>
           Some (print_info (String LF "Stopped following logs."))
       | _ =>
           if is_Exception e
           then Some (print_error ("An error occurred: " ++ exn_str e) ;;
                      sys_exit 1)
           else None
       end).

(** config (lines 334-339) *)
Definition config : M unit := status.

End CliRest.

(** ** src/ccp/cli.py: the shell, the settings and the command line *)

Module Host.
Import PyStr Cli CliRest.

(** The two shell startup files the module knows. *)
Inductive RcFile := ZSHRC | BASHRC.

(** A startup file: it is not there, it holds a text, or it is there and
    opening it raises. [locked] is the exception that opening the file
    for appending raises, if it raises one (a read-only file, a home
    directory that takes no new file). *)
Inductive RcState :=
| RcMissing (locked : option Exn)
| RcHolds (content : string) (locked : option Exn)
| RcDenied (e : Exn).

(** The settings as python-dotenv's [get_key] and [set_key] see them: a
    value for each key that is set. How the library lays them out as
    text is not followed: the text of the file, which [status] prints,
    is [dotenv_file] of the world, and nothing below speaks of that text
    after a [set_key]. Creating the file and rewriting it succeed, as
    for the files of the supervisor. *)
Definition Settings := string -> option string.

(** The machine the command line runs on: the supervisor's world, the
    shell of the user, the two startup files, and the settings file
    ([None] when [find_dotenv()] finds none). [home] is the home
    directory as [os.path.expanduser] puts it in front of "/.zshrc",
    without a "/" at its end, and [new_env_path] is
    [os.path.join(os.getcwd(), ".env")]. *)
Record Machine := mkMachine {
  world : World;
  SHELL : string;                 (* os.environ.get("SHELL", "") *)
  home : string;
  zshrc : RcState;
  bashrc : RcState;
  settings : option Settings;
  new_env_path : string
}.

Definition set_world (w : World) (m : Machine) : Machine :=
  mkMachine w (SHELL m) (home m) (zshrc m) (bashrc m) (settings m) (new_env_path m).
Definition set_settings (s : option Settings) (m : Machine) : Machine :=
  mkMachine (world m) (SHELL m) (home m) (zshrc m) (bashrc m) s (new_env_path m).
Definition rc_state (f : RcFile) (m : Machine) : RcState :=
  match f with ZSHRC => zshrc m | BASHRC => bashrc m end.
Definition set_rc_state (f : RcFile) (st : RcState) (m : Machine) : Machine :=
  match f with
  | ZSHRC => mkMachine (world m) (SHELL m) (home m) st (bashrc m) (settings m) (new_env_path m)
  | BASHRC => mkMachine (world m) (SHELL m) (home m) (zshrc m) st (settings m) (new_env_path m)
  end.

(** [os.path.basename(rc_file)] and [os.path.expanduser("~/" + name)] *)
Definition rc_basename (f : RcFile) : string :=
  match f with ZSHRC => ".zshrc" | BASHRC => ".bashrc" end.
Definition rc_path (h : string) (f : RcFile) : string := h ++ "/" ++ rc_basename f.

(** What the user is shown and asked, in order: the console events of
    the supervisor, the questions of [Prompt.ask] and of [Confirm.ask]. *)
Inductive Say :=
| Console (ev : Event)
| Ask (prompt : string) (choices : list string) (default : option string) (password : bool)
| AskConfirm (prompt : string).

(** Commands on the machine. *)
Definition T (A : Type) : Type := Machine -> Result A * Machine * list Say.

Definition machine_of {A} (x : Result A * Machine * list Say) : Machine := snd (fst x).
Definition said {A} (x : Result A * Machine * list Say) : list Say := snd x.

Definition tret {A} (a : A) : T A := fun m => (Ok a, m, []).
Definition tbind {A B} (c : T A) (k : A -> T B) : T B :=
  fun m =>
    match c m with
    | (Ok a, m1, t1) =>
        match k a m1 with
        | (r, m2, t2) => (r, m2, (t1 ++ t2)%list)
        end
    | (Raised e, m1, t1) => (Raised e, m1, t1)
    end.
Definition traise {A} (e : Exn) : T A := fun m => (Raised e, m, []).
Definition tsay (s : Say) : T unit := fun m => (Ok tt, m, [s]).
Definition tgets {A} (f : Machine -> A) : T A := fun m => (Ok (f m), m, []).
Definition tmodify (f : Machine -> Machine) : T unit := fun m => (Ok tt, f m, []).

(** A command of the supervisor, run on the world of the machine. *)
Definition lift {A} (c : M A) : T A :=
  fun m =>
    match c (world m) with
    | (r, w, t) => (r, set_world w m, map Console t)
    end.

Definition ttry_except {A} (body : T A) (handler : Exn -> option (T A)) : T A :=
  fun m =>
    match body m with
    | (Ok a, m1, t1) => (Ok a, m1, t1)
    | (Raised Terminated, m1, t1) => (Raised Terminated, m1, t1)
    | (Raised e, m1, t1) =>
        match handler e with
        | Some h => match h m1 with (r, m2, t2) => (r, m2, (t1 ++ t2)%list) end
        | None => (Raised e, m1, t1)
        end
    end.

Declare Scope host_scope.
Delimit Scope host_scope with host.
Notation "x <- c ;; k" := (tbind c (fun x => k))
  (at level 61, c at next level, right associativity) : host_scope.
Notation "c ;; k" := (tbind c (fun _ => k))
  (at level 61, right associativity) : host_scope.
Local Open Scope host_scope.

(** [open(rc_file).read()] *)
Definition read_rc (f : RcFile) : T string :=
  st <- tgets (rc_state f) ;;
  match st with
  | RcHolds content _ => tret content
  | RcMissing _ => traise (FileNotFoundError "[Errno 2] No such file or directory")
  | RcDenied e => traise e
  end.

(** [os.path.exists(rc_file)] *)
Definition rc_exists (f : RcFile) : T bool :=
  st <- tgets (rc_state f) ;;
  tret (match st with RcMissing _ => false | _ => true end).

(** [with open(rc_file, "a") as f: f.write(text)]: the file is created
    when it is missing. *)
Definition append_rc (f : RcFile) (text : string) : T unit :=
  st <- tgets (rc_state f) ;;
  match st with
  | RcHolds content None => tmodify (set_rc_state f (RcHolds (content ++ text) None))
  | RcMissing None => tmodify (set_rc_state f (RcHolds text None))
  | RcHolds _ (Some e) | RcMissing (Some e) | RcDenied e => traise e
  end.

Definition url_export : string := "export ANTHROPIC_BASE_URL=http://localhost:8082".

(** The startup file for a shell: "zsh" is looked for first, then "bash"
    (lines 122-125 and 354-357). *)
Definition rc_file_for (shell : string) : option RcFile :=
  if contains "zsh" shell then Some ZSHRC
  else if contains "bash" shell then Some BASHRC
  else None.

(** check_anthropic_base_url_in_shell_config (lines 350-381) *)
Definition check_anthropic_base_url_in_shell_config : T unit :=
  shell <- tgets SHELL ;;
  h <- tgets home ;;
  let rc_file := rc_file_for shell in
  there <- match rc_file with
           | Some f => rc_exists f
           | None => tret false
           end ;;
  match rc_file, there with
  | Some f, true =>
      ttry_except
        (content <- read_rc f ;;
         if contains url_export content
         then lift (print_info
                      ("Found '" ++ url_export ++ "' in your '" ++ rc_basename f
                         ++ "' file. Your client should connect automatically."))
         else lift (print_warning
                      ("'" ++ url_export ++ "' not found in your '" ++ rc_basename f
                         ++ "' file." ++ String LF
                         ("Your client may not connect to the proxy automatically."
                            ++ String LF
                            "Run 'ccp init' to configure your shell, or use 'ANTHROPIC_BASE_URL=http://localhost:8082 claude'."))))
        (fun e =>
           if is_Exception e
           then Some (lift (print_error ("Could not check shell config file: " ++ exn_str e)))
           else None)
  | _, _ =>
      lift (print_warning
              ("Could not find a shell configuration file ("
                 ++ match rc_file with Some f => rc_path h f | None => "None" end
                 ++ ")." ++ String LF
                 "Ensure 'export ANTHROPIC_BASE_URL=http://localhost:8082' is set in your environment to use the proxy."))
  end.

(** main, the callback of the application (lines 341-348).
    [invoked_subcommand] tells whether a command was given. *)
Definition main (invoked_subcommand : bool) : T unit :=
  check_anthropic_base_url_in_shell_config ;;
  if negb invoked_subcommand then lift status else tret tt.

(** *** The settings file and the questions *)

(** get_env_path (lines 33-42): when no settings file is found an empty
    one is created. *)
Definition get_env_path : T unit :=
  s <- tgets settings ;;
  match s with
  | Some _ => tret tt
  | None =>
      tmodify (set_settings (Some (fun _ => None))) ;;
      p <- tgets new_env_path ;;
      lift (print_info ("Created .env file at: " ++ p))
  end.

(** [get_key(env_path, key)] *)
Definition get_key (key : string) : T (option string) :=
  s <- tgets settings ;;
  tret (match s with Some f => f key | None => None end).

(** [set_key(env_path, key, value)] *)
Definition set_key (key value : string) : T unit :=
  tmodify (fun m =>
             set_settings
               (Some (fun k => if String.eqb k key then Some value
                               else match settings m with
                                    | Some f => f k
                                    | None => None
                                    end))
               m).

(** [x or d] for an optional text: [None] and the empty text give [d]. *)
Definition or_else (x : option string) (d : string) : string :=
  match x with
  | None => d
  | Some v => if String.eqb v "" then d else v
  end.

(** [Prompt.ask(prompt, choices=..., default=..., password=...)] when the
    user types [typed]: the empty answer gives the default when there is
    one, every other answer is returned without its surrounding
    whitespace. With [choices], [typed] is the answer the prompt
    accepted. *)
Definition prompt_ask (prompt : string) (choices : list string)
           (default : option string) (password : bool) (typed : string) : T string :=
  tsay (Ask prompt choices default password) ;;
  tret (match default with
        | Some d => if String.eqb typed "" then d else strip typed
        | None => strip typed
        end).

(** [Confirm.ask(prompt)] *)
Definition confirm_ask (prompt : string) (answer : bool) : T bool :=
  tsay (AskConfirm prompt) ;; tret answer.

(** What the user answers to the questions of [init]. *)
Record Answers := mkAnswers {
  openai_key_input : string;
  gemini_key_input : string;
  provider_input : string;
  big_model_input : string;
  small_model_input : string;
  shell_confirm : bool
}.

(** Lines 80-87 and 90-97: one API key. The stored key, when there is
    one, is named in the question by its first and last four characters;
    the empty answer keeps it. *)
Definition ask_api_key (key provider : string) (typed : string) : T string :=
  stored <- get_key key ;;
  let existing_key := or_else stored "" in
  let prompt_text :=
    if String.eqb existing_key "" then "Enter your " ++ provider ++ " API Key"
    else
      let masked := slice_to 4 existing_key ++ "..." ++ slice_last 4 existing_key in
      "Enter new " ++ provider ++ " API Key (press Enter to keep " ++ masked ++ ")" in
  key_input <- prompt_ask prompt_text [] None true typed ;;
  tret (if String.eqb key_input "" then existing_key else key_input).

Definition rc_addition : string :=
  String LF ("# Added by Anthropic API Proxy" ++ String LF (url_export ++ String LF "")).

(** Lines 118-140: the shell configuration. *)
Definition configure_shell (answer : bool) : T unit :=
  yes <- confirm_ask "Add ANTHROPIC_BASE_URL to your shell startup file? (Recommended)"
                     answer ;;
  if yes then
    shell <- tgets SHELL ;;
    match rc_file_for shell with
    | None =>
        lift (print_warning ("Unsupported shell: " ++ shell
                               ++ ". Please set ANTHROPIC_BASE_URL manually."))
    | Some f =>
        h <- tgets home ;;
        there <- rc_exists f ;;
        already <- (if there
                    then content <- read_rc f ;; tret (contains url_export content)
                    else tret false) ;;
        if already
        then lift (print_info ("ANTHROPIC_BASE_URL is already set in " ++ rc_path h f ++ "."))
        else
          ttry_except
            (append_rc f rc_addition ;;
             lift (print_success ("Added ANTHROPIC_BASE_URL to " ++ rc_path h f ++ ".")) ;;
             lift (print_info
                     "Please restart your terminal or run 'source ~/{os.path.basename(rc_file)}' to apply changes."))
            (fun e =>
               if is_Exception e
               then Some (lift (print_error ("Failed to write to " ++ rc_path h f ++ ": "
                                               ++ exn_str e)))
               else None)
    end
  else tret tt.

(** init (lines 66-140) *)
Definition init (a : Answers) : T unit :=
  lift (console_rule "[bold]Project Initialization[/bold]") ;;
  lift (print_info "This wizard will guide you through setting up your environment.") ;;
  get_env_path ;;
  lift (console_print (String LF "[bold]1. API Keys[/bold]")) ;;
  final_openai_key <- ask_api_key "OPENAI_API_KEY" "OpenAI" (openai_key_input a) ;;
  final_gemini_key <- ask_api_key "GEMINI_API_KEY" "Gemini" (gemini_key_input a) ;;
  set_key "OPENAI_API_KEY" final_openai_key ;;
  set_key "GEMINI_API_KEY" final_gemini_key ;;
  lift (print_success "API keys saved to .env file.") ;;
  lift (console_print (String LF "[bold]2. Model Configuration[/bold]")) ;;
  stored_provider <- get_key "PREFERRED_PROVIDER" ;;
  preferred_provider <- prompt_ask "Choose your preferred provider" ["openai"; "google"]
                          (Some (or_else stored_provider "openai")) false
                          (provider_input a) ;;
  stored_big <- get_key "BIG_MODEL" ;;
  big_model <- prompt_ask "Enter the model for 'sonnet' requests" []
                 (Some (or_else stored_big "gpt-4.1")) false (big_model_input a) ;;
  stored_small <- get_key "SMALL_MODEL" ;;
  small_model <- prompt_ask "Enter the model for 'haiku' requests" []
                   (Some (or_else stored_small "gpt-4.1-mini")) false
                   (small_model_input a) ;;
  set_key "PREFERRED_PROVIDER" preferred_provider ;;
  set_key "BIG_MODEL" big_model ;;
  set_key "SMALL_MODEL" small_model ;;
  lift (print_success "Model configuration saved to .env file.") ;;
  lift (console_print (String LF "[bold]3. Shell Configuration[/bold]")) ;;
  configure_shell (shell_confirm a).

(** *** The command line *)

Inductive Command :=
| CmdInit (a : Answers)
| CmdStart (foreground auto : bool) (ext : Externals)
| CmdStop
| CmdLogs (run_tail : RunResult)
| CmdConfig.

(** The application: the callback first, then the command that was
    given. *)
Definition ccp (cmd : option Command) : T unit :=
  main (match cmd with Some _ => true | None => false end) ;;
  match cmd with
  | None => tret tt
  | Some (CmdInit a) => init a
  | Some (CmdStart foreground auto ext) => lift (start foreground auto ext)
  | Some CmdStop => lift stop
  | Some (CmdLogs run_tail) => lift (logs run_tail)
  | Some CmdConfig => lift config
  end.

End Host.

(** ** Vocabulary for the properties of the shell, the settings and the
    command line *)

Module HostVocabulary.
Import PyStr Cli CliRest Host.
Local Open Scope list_scope.

(** The line of the shell check that says the export line was found. *)
Definition found_line (f : RcFile) : Say :=
  Console (Out ("[bold blue][INFO][/bold blue] Found '" ++ url_export ++ "' in your '"
                  ++ rc_basename f
                  ++ "' file. Your client should connect automatically.")).

(** The other lines of the shell check. *)
Definition not_found_line (f : RcFile) : Say :=
  Console (Out ("[bold yellow][WARNING][/bold yellow] '" ++ url_export
                  ++ "' not found in your '" ++ rc_basename f ++ "' file." ++ String LF
                  ("Your client may not connect to the proxy automatically." ++ String LF
                     "Run 'ccp init' to configure your shell, or use 'ANTHROPIC_BASE_URL=http://localhost:8082 claude'."))).

Definition unreadable_line (e : Exn) : Say :=
  Console (Err ("[bold red][ERROR][/bold red] Could not check shell config file: "
                  ++ exn_str e)).

Definition no_rc_line (path : string) : Say :=
  Console (Out ("[bold yellow][WARNING][/bold yellow] Could not find a shell configuration file ("
                  ++ path ++ ")." ++ String LF
                  "Ensure 'export ANTHROPIC_BASE_URL=http://localhost:8082' is set in your environment to use the proxy.")).

(** The value [init] stores for a model setting: the answer without its
    surrounding whitespace, or on an empty answer the stored value, or
    the built-in default when nothing (or the empty text) is stored. *)
Definition chosen (typed : string) (stored : option string) (default : string) : string :=
  if String.eqb typed "" then or_else stored default else strip typed.

(** The value [init] stores for an API key: the answer without its
    surrounding whitespace, or when nothing is left of it the stored
    key, or the empty text. *)
Definition chosen_key (typed : string) (stored : option string) : string :=
  if String.eqb (strip typed) "" then or_else stored "" else strip typed.

(** [get_key] on a machine. *)
Definition stored (m : Machine) (key : string) : option string :=
  match settings m with Some f => f key | None => None end.

(** The five keys [init] sets. *)
Definition init_keys : list string :=
  ["OPENAI_API_KEY"; "GEMINI_API_KEY"; "PREFERRED_PROVIDER"; "BIG_MODEL"; "SMALL_MODEL"].

(** The startup file [f] is the one of the shell. *)
Definition is_rc_of (shell : string) (f : RcFile) : bool :=
  match rc_file_for shell, f with
  | Some ZSHRC, ZSHRC | Some BASHRC, BASHRC => true
  | _, _ => false
  end.

(** A startup file after [init] went through it: the export line is
    appended unless the file holds it already; a file that cannot be
    opened stays as it is. *)
Definition with_export (st : RcState) : RcState :=
  match st with
  | RcMissing None => RcHolds rc_addition None
  | RcHolds content None =>
      if contains url_export content then st
      else RcHolds (content ++ rc_addition) None
  | _ => st
  end.

(** The startup file can be read, if it is there, and opened for
    appending. *)
Definition opens (st : RcState) : bool :=
  match st with
  | RcMissing None | RcHolds _ None => true
  | _ => false
  end.

(** The startup file lacks the export line and opening it for appending
    raises [e]. *)
Definition locked_without_export (st : RcState) (e : Exn) : Prop :=
  st = RcMissing (Some e)
  \/ exists content, st = RcHolds content (Some e) /\ contains url_export content = false.

(** The record, the log and the processes of two worlds are the same. *)
Definition same_supervision (w w' : World) : Prop :=
  pid_file w = pid_file w' /\ log_file w = log_file w' /\ kernel w = kernel w'.

(** The error line of [init] when the startup file cannot be written. *)
Definition write_failed_line (path : string) (e : Exn) : Say :=
  Console (Err ("[bold red][ERROR][/bold red] Failed to write to " ++ path ++ ": "
                  ++ exn_str e)).



(** A machine for the examples: a zsh user with a startup file that
    lacks the export line, nothing in bash, no settings file. *)
Definition example_machine : Machine :=
  mkMachine (Vocabulary.example_world None None) "/bin/zsh" "/home/dev"
            (RcHolds "alias ll='ls -l'" None) (RcMissing None) None "/srv/app/.env".


Definition example_answers : Answers :=
  mkAnswers "sk-live-1234567890" "" "" "" "" true.

End HostVocabulary.

(* ===================================================================== *)
(** * Part II. Properties                                                 *)
(* ===================================================================== *)

(** ** Facts about the string operations *)

Module PyStrFacts.
Import PyStr.

Lemma startswith_iff (p s : string) :
  startswith p s = true <-> exists post, s = p ++ post.
Proof.
  unfold startswith. revert s.
  induction p as [|a p IH]; intros s.
  - destruct s; simpl; split; eauto.
  - destruct s as [|b s]; simpl.
    + split; [discriminate | intros [post H]; discriminate].
    + destruct (Ascii.ascii_dec a b) as [->|Hab].
      * rewrite IH. split; intros [post H]; exists post; congruence.
      * split; [discriminate | intros [post H]; congruence].
Qed.

Lemma contains_eq (needle hay : string) :
  contains needle hay =
  if startswith needle hay then true
  else match hay with
       | EmptyString => false
       | String _ t => contains needle t
       end.
Proof. destruct hay; reflexivity. Qed.

(** [contains] decides the substring relation. *)
Lemma contains_iff (needle hay : string) :
  contains needle hay = true <-> Substring needle hay.
Proof.
  unfold Substring.
  induction hay as [|c hay IH]; rewrite contains_eq;
    destruct (startswith needle _) eqn:E.
  - apply startswith_iff in E. destruct E as [post E].
    split; [intros _; exists "", post; exact E | reflexivity].
  - split; [discriminate|].
    intros (pre & post & H). destruct pre; [|discriminate].
    assert (startswith needle "" = true) by (apply startswith_iff; eauto).
    congruence.
  - apply startswith_iff in E. destruct E as [post E].
    split; [intros _; exists "", post; exact E | reflexivity].
  - rewrite IH. split.
    + intros (pre & post & H). exists (String c pre), post. simpl. now f_equal.
    + intros (pre & post & H). destruct pre as [|c' pre].
      * assert (startswith needle (String c hay) = true)
          by (apply startswith_iff; eauto).
        congruence.
      * simpl in H. injection H as _ H. eauto.
Qed.

Lemma contains_false_iff (needle hay : string) :
  contains needle hay = false <-> ~ Substring needle hay.
Proof.
  rewrite <- contains_iff. destruct (contains needle hay); split; congruence.
Qed.

Lemma append_assoc (a b c : string) : (a ++ b) ++ c = a ++ b ++ c.
Proof. induction a; simpl; congruence. Qed.

Lemma length_append (a b : string) :
  String.length (a ++ b) = (String.length a + String.length b)%nat.
Proof. induction a; simpl; congruence. Qed.

Lemma substring_all (s : string) : String.substring 0 (String.length s) s = s.
Proof. induction s; simpl; congruence. Qed.

(** [s[:n]] is the part of [s] made of its first [n] characters. *)
Lemma slice_to_app (a b : string) : slice_to (String.length a) (a ++ b) = a.
Proof.
  unfold slice_to. induction a as [|c a IH]; simpl.
  - now destruct b.
  - now rewrite IH.
Qed.

(** [s[-n:]] is the part of [s] made of its last [n] characters. *)
Lemma slice_last_app (a b : string) : slice_last (String.length b) (a ++ b) = b.
Proof.
  unfold slice_last. rewrite length_append.
  replace (String.length a + String.length b - String.length b)%nat
    with (String.length a) by lia.
  induction a as [|c a IH]; simpl.
  - apply substring_all.
  - exact IH.
Qed.

Lemma not_substring_tail (n : string) (c : ascii) (s : string) :
  ~ Substring n (String c s) -> ~ Substring n s.
Proof.
  intros H (pre & post & E). apply H. exists (String c pre), post.
  simpl. now f_equal.
Qed.

Lemma not_substring_head (c d : ascii) (s : string) :
  ~ Substring (String c "") (String d s) -> Ascii.eqb d c = false.
Proof.
  intros H. destruct (Ascii.eqb_spec d c) as [->|]; [|reflexivity].
  exfalso. apply H. exists "", s. reflexivity.
Qed.

(** [split_once] cuts at the first separator. *)
Lemma split_once_app (sep : ascii) (key value : string) :
  ~ Substring (String sep "") key ->
  split_once sep (key ++ String sep value) = Some (key, value).
Proof.
  induction key as [|c key IH]; intros H; simpl.
  - now rewrite Ascii.eqb_refl.
  - rewrite (not_substring_head _ _ _ H).
    now rewrite (IH (not_substring_tail _ _ _ H)).
Qed.

Lemma split_once_none (sep : ascii) (s : string) :
  ~ Substring (String sep "") s -> split_once sep s = None.
Proof.
  induction s as [|c s IH]; intros H; simpl; [reflexivity|].
  rewrite (not_substring_head _ _ _ H).
  now rewrite (IH (not_substring_tail _ _ _ H)).
Qed.

(** *** Printing an integer and reading it back *)

Lemma literal_digits_after_digit (d : Decimal.uint) :
  literal_digits true (NilEmpty.string_of_uint d) = Some d.
Proof.
  induction d; [reflexivity | ..];
    cbn [NilEmpty.string_of_uint literal_digits];
    cbn [Ascii.eqb Bool.eqb digit_of_char]; rewrite IHd; reflexivity.
Qed.

Lemma literal_digits_printed (d : Decimal.uint) :
  d <> Decimal.Nil ->
  literal_digits false (NilEmpty.string_of_uint d) = Some d.
Proof.
  destruct d; [congruence | ..]; intros _;
    cbn [NilEmpty.string_of_uint literal_digits];
    cbn [Ascii.eqb Bool.eqb digit_of_char];
    rewrite literal_digits_after_digit; reflexivity.
Qed.

Lemma rstrip_printed (d : Decimal.uint) :
  rstrip (NilEmpty.string_of_uint d) = NilEmpty.string_of_uint d.
Proof.
  induction d; [reflexivity | ..];
    cbn [NilEmpty.string_of_uint rstrip]; rewrite IHd;
    destruct (NilEmpty.string_of_uint d); reflexivity.
Qed.

Lemma lstrip_printed (d : Decimal.uint) :
  lstrip (NilEmpty.string_of_uint d) = NilEmpty.string_of_uint d.
Proof. destruct d; reflexivity. Qed.

Lemma parse_int_printed (d : Decimal.uint) :
  d <> Decimal.Nil ->
  parse_int (NilEmpty.string_of_uint d) = Some (Z.of_uint d).
Proof.
  intros Hd. unfold parse_int, strip.
  rewrite lstrip_printed, rstrip_printed.
  transitivity (option_map Z.of_uint (literal_digits false (NilEmpty.string_of_uint d))).
  - destruct d; reflexivity.
  - now rewrite literal_digits_printed.
Qed.

Lemma parse_int_printed_neg (d : Decimal.uint) :
  d <> Decimal.Nil ->
  parse_int (String "-" (NilEmpty.string_of_uint d)) = Some (- Z.of_uint d).
Proof.
  intros Hd. unfold parse_int, strip.
  cbn [lstrip]. change (is_space "-") with false. cbv iota.
  assert (E : rstrip (String "-" (NilEmpty.string_of_uint d))
              = String "-" (NilEmpty.string_of_uint d)).
  { cbn [rstrip]. rewrite rstrip_printed.
    destruct (NilEmpty.string_of_uint d); reflexivity. }
  rewrite E. cbv iota beta.
  now rewrite literal_digits_printed.
Qed.

Lemma of_uint_to_uint (p : positive) : Z.of_uint (Pos.to_uint p) = Z.pos p.
Proof. unfold Z.of_uint. now rewrite DecimalPos.Unsigned.of_to. Qed.

Lemma string_of_uint_nonnil (d : Decimal.uint) :
  d <> Decimal.Nil -> NilZero.string_of_uint d = NilEmpty.string_of_uint d.
Proof. destruct d; [congruence | reflexivity ..]. Qed.

(** Reading back what [str] printed gives the integer again. *)
Lemma parse_int_str_of_int (i : Z) : parse_int (str_of_int i) = Some i.
Proof.
  unfold str_of_int. destruct i as [|p|p]; [reflexivity | ..];
    cbn [Z.to_int NilZero.string_of_int];
    pose proof (DecimalPos.Unsigned.to_uint_nonnil p) as Hp;
    rewrite (string_of_uint_nonnil _ Hp).
  - rewrite (parse_int_printed _ Hp). now rewrite of_uint_to_uint.
  - rewrite (parse_int_printed_neg _ Hp). now rewrite of_uint_to_uint.
Qed.

Lemma strip_str_of_int (i : Z) : strip (str_of_int i) = str_of_int i.
Proof.
  unfold str_of_int, strip. destruct i as [|p|p]; [reflexivity | ..];
    cbn [Z.to_int NilZero.string_of_int];
    pose proof (DecimalPos.Unsigned.to_uint_nonnil p) as Hp;
    rewrite (string_of_uint_nonnil _ Hp).
  - rewrite lstrip_printed. apply rstrip_printed.
  - cbn [lstrip]. change (is_space "-") with false. cbv iota.
    cbn [rstrip]. rewrite rstrip_printed.
    destruct (NilEmpty.string_of_uint (Pos.to_uint p)); reflexivity.
Qed.

End PyStrFacts.

(** ** The alias resolver *)

Module McpServerSpec.
Import PyStr PyStrFacts McpServer Vocabulary.

Lemma provider_prefix_gemini (cfg : Config) :
  provider_prefix cfg = "gemini" <-> PREFERRED_PROVIDER cfg = "google".
Proof.
  unfold provider_prefix.
  destruct (String.eqb_spec (PREFERRED_PROVIDER cfg) "google"); split;
    congruence || discriminate.
Qed.

Lemma provider_prefix_openai (cfg : Config) :
  provider_prefix cfg = "openai" <-> PREFERRED_PROVIDER cfg <> "google".
Proof.
  unfold provider_prefix.
  destruct (String.eqb_spec (PREFERRED_PROVIDER cfg) "google"); split;
    congruence || discriminate.
Qed.

Lemma mapped_small (cfg : Config) (a : string) :
  contains "haiku" (lower a) = true ->
  get_mapped_model cfg a = provider_prefix cfg ++ "/" ++ SMALL_MODEL cfg.
Proof.
  intros H. unfold get_mapped_model, provider_prefix. rewrite H.
  now destruct (String.eqb _ _).
Qed.

Lemma mapped_big (cfg : Config) (a : string) :
  contains "haiku" (lower a) = false ->
  contains "sonnet" (lower a) = true ->
  get_mapped_model cfg a = provider_prefix cfg ++ "/" ++ BIG_MODEL cfg.
Proof.
  intros H1 H2. unfold get_mapped_model, provider_prefix. rewrite H1, H2.
  now destruct (String.eqb _ _).
Qed.

Lemma mapped_other (cfg : Config) (a : string) :
  contains "haiku" (lower a) = false ->
  contains "sonnet" (lower a) = false ->
  get_mapped_model cfg a = a.
Proof.
  intros H1 H2. unfold get_mapped_model. now rewrite H1, H2.
Qed.

Example default_config_value :
  default_config = mkConfig "openai" "gpt-4.1" "gpt-4.1-mini".
Proof. reflexivity. Qed.

(** The provider name is compared after the module lower-cased it. *)
Example google_config_value :
  google_config = mkConfig "google" "gpt-4.1" "gpt-4.1-mini".
Proof. reflexivity. Qed.

(** C1, as the specification words it, fails for the big-model marker:
    an alias that contains 'sonnet' and also 'haiku' is resolved to the
    small model, not to '<prefix>/<bigModelName>'. *)
Lemma sonnet_with_haiku_not_big :
  Substring "sonnet" (lower "Haiku-or-Sonnet")
  /\ get_mapped_model default_config "Haiku-or-Sonnet" = "openai/gpt-4.1-mini"
  /\ get_mapped_model default_config "Haiku-or-Sonnet"
     <> provider_prefix default_config ++ "/" ++ BIG_MODEL default_config.
Proof.
  split; [exists "haiku-or-", ""; reflexivity|].
  split; [reflexivity | discriminate].
Qed.

(** C1 (amended): an alias whose lower-cased text contains 'haiku'
    resolves to '<prefix>/<small model>'; an alias of ASCII characters
    that contains 'sonnet' and not 'haiku' resolves to
    '<prefix>/<big model>'; an alias of ASCII characters that contains
    neither is returned unchanged. The prefix is 'gemini' exactly when
    the module's preferred provider is 'google', and 'openai' otherwise.
    (For an alias with other characters Python's own case mapping
    decides whether a marker is absent: the Kelvin sign counts as 'k'.) *)
Theorem get_mapped_model_resolves (cfg : Config) (model_alias : string) :
  (Substring "haiku" (lower model_alias) ->
   get_mapped_model cfg model_alias = provider_prefix cfg ++ "/" ++ SMALL_MODEL cfg)
  /\ (is_ascii model_alias = true ->
      ~ Substring "haiku" (lower model_alias) ->
      Substring "sonnet" (lower model_alias) ->
      get_mapped_model cfg model_alias = provider_prefix cfg ++ "/" ++ BIG_MODEL cfg)
  /\ (is_ascii model_alias = true ->
      ~ Substring "haiku" (lower model_alias) ->
      ~ Substring "sonnet" (lower model_alias) ->
      get_mapped_model cfg model_alias = model_alias)
  /\ (provider_prefix cfg = "gemini" <-> PREFERRED_PROVIDER cfg = "google")
  /\ (provider_prefix cfg = "openai" <-> PREFERRED_PROVIDER cfg <> "google").
Proof.
  repeat split.
  - intros H. apply mapped_small. now apply contains_iff.
  - intros _ H1 H2. apply mapped_big;
      [now apply contains_false_iff | now apply contains_iff].
  - intros _ H1 H2. apply mapped_other; now apply contains_false_iff.
  - apply provider_prefix_gemini.
  - apply provider_prefix_gemini.
  - apply provider_prefix_openai.
  - apply provider_prefix_openai.
Qed.

(** The three cases of C1 at concrete aliases, under both providers. *)
Lemma get_mapped_model_resolves_witness :
  (Substring "haiku" (lower "claude-3-5-HAIKU")
   /\ get_mapped_model google_config "claude-3-5-HAIKU" = "gemini/gpt-4.1-mini")
  /\ (~ Substring "haiku" (lower "Claude-Sonnet-4")
      /\ Substring "sonnet" (lower "Claude-Sonnet-4")
      /\ get_mapped_model default_config "Claude-Sonnet-4" = "openai/gpt-4.1")
  /\ (~ Substring "haiku" (lower "gpt-4o")
      /\ ~ Substring "sonnet" (lower "gpt-4o")
      /\ get_mapped_model default_config "gpt-4o" = "gpt-4o").
Proof.
  assert (H1 : Substring "haiku" (lower "claude-3-5-HAIKU"))
    by (exists "claude-3-5-", ""; reflexivity).
  assert (H2 : ~ Substring "haiku" (lower "Claude-Sonnet-4"))
    by (apply contains_false_iff; reflexivity).
  assert (H3 : Substring "sonnet" (lower "Claude-Sonnet-4"))
    by (exists "claude-", "-4"; reflexivity).
  assert (H4 : ~ Substring "haiku" (lower "gpt-4o"))
    by (apply contains_false_iff; reflexivity).
  assert (H5 : ~ Substring "sonnet" (lower "gpt-4o"))
    by (apply contains_false_iff; reflexivity).
  split; [|split].
  - split; [exact H1|].
    exact (proj1 (get_mapped_model_resolves google_config "claude-3-5-HAIKU") H1).
  - split; [exact H2|]. split; [exact H3|].
    exact (proj1 (proj2 (get_mapped_model_resolves default_config "Claude-Sonnet-4"))
                 eq_refl H2 H3).
  - split; [exact H4|]. split; [exact H5|].
    exact (proj1 (proj2 (proj2 (get_mapped_model_resolves default_config "gpt-4o")))
                 eq_refl H4 H5).
Defined.

(** C8: an alias whose lower-cased text contains both 'haiku' and
    'sonnet' resolves to the small model: the 'haiku' test comes first. *)
Theorem haiku_takes_precedence (cfg : Config) (model_alias : string) :
  Substring "haiku" (lower model_alias) ->
  Substring "sonnet" (lower model_alias) ->
  get_mapped_model cfg model_alias = provider_prefix cfg ++ "/" ++ SMALL_MODEL cfg.
Proof.
  intros H _. apply mapped_small. now apply contains_iff.
Qed.

Lemma haiku_takes_precedence_witness :
  Substring "haiku" (lower "sonnet-then-Haiku")
  /\ Substring "sonnet" (lower "sonnet-then-Haiku")
  /\ get_mapped_model google_config "sonnet-then-Haiku" = "gemini/gpt-4.1-mini".
Proof.
  assert (H1 : Substring "haiku" (lower "sonnet-then-Haiku"))
    by (exists "sonnet-then-", ""; reflexivity).
  assert (H2 : Substring "sonnet" (lower "sonnet-then-Haiku"))
    by (exists "", "-then-haiku"; reflexivity).
  split; [exact H1|]. split; [exact H2|].
  exact (haiku_takes_precedence google_config "sonnet-then-Haiku" H1 H2).
Defined.

End McpServerSpec.

(** ** The supervisor: how each command runs, case by case *)

Module CliFacts.
Import PyStr PyStrFacts Cli Vocabulary.
Local Open Scope list_scope.
Local Open Scope cmd_scope.

(** Runs the monad operations of a command as far as the world allows;
    the commands themselves stay folded and are rewritten with their
    equations. *)
Ltac run :=
  cbv beta iota zeta delta
    [bind ret raise emit gets modify try_except try_finally sys_exit
     print_info print_success print_warning print_error console_print
     console_rule exists_file read_pid_file unlink_pid_file write_pid_file
     open_log_file_wb int_of os_kill negb andb orb is_Exception
     set_pid_file set_log_file set_venv_isdir set_kernel];
  cbn [pid_file log_file log_path dotenv_file venv_isdir kernel].

Ltac run_all :=
  run; repeat (match goal with H : _ = _ |- _ => rewrite H end; run).

Ltac run_sub :=
  run; cbv beta iota zeta delta [subprocess_run subprocess_Popen]; run.

Ltac event_cases :=
  let ev := fresh "ev" in
  intros ev; destruct ev as [| | | | | ? [|] | | [|] ? | [|]]; cbn; congruence.

(** *** Lists of events *)

Lemma forallb_excludes {A} (p q : A -> bool) (l : list A) :
  (forall x, p x = true -> q x = false) ->
  forallb p l = true -> existsb q l = false.
Proof.
  intros Hpq. induction l as [|x l IH]; cbn; [reflexivity|].
  intros H. apply andb_prop in H. destruct H as [Hx Hl].
  now rewrite (Hpq x Hx), IH.
Qed.

Lemma forallb_filter_nil {A} (p q : A -> bool) (l : list A) :
  (forall x, p x = true -> q x = false) ->
  forallb p l = true -> filter q l = [].
Proof.
  intros Hpq. induction l as [|x l IH]; cbn; [reflexivity|].
  intros H. apply andb_prop in H. destruct H as [Hx Hl].
  now rewrite (Hpq x Hx), IH.
Qed.



Lemma reports_only_no_launch :
  forall ev, reports_only ev = true -> is_setup_or_launch ev = false.
Proof. event_cases. Qed.

Lemma reports_only_not_popen :
  forall ev, reports_only ev = true -> is_launch ev = false.
Proof. event_cases. Qed.

Lemma reports_only_no_fs :
  forall ev, reports_only ev = true -> is_fs ev = false.
Proof. event_cases. Qed.

Lemma probe_or_cleanup_not_popen :
  forall ev, probe_or_cleanup ev = true -> is_launch ev = false.
Proof. event_cases. Qed.

Lemma console_or_run_not_popen :
  forall ev, console_or_run ev = true -> is_launch ev = false.
Proof. event_cases. Qed.

(** *** Worlds *)

Lemma set_pid_file_same (w : World) (c : option string) :
  pid_file w = c -> set_pid_file c w = w.
Proof. intros <-. now destruct w. Qed.

Lemma set_venv_isdir_same (w : World) (b : bool) :
  venv_isdir w = b -> set_venv_isdir b w = w.
Proof. intros <-. now destruct w. Qed.

(** *** The liveness check *)

Lemma liveness_no_record (w : World) :
  pid_file w = None ->
  is_server_really_running w = (Ok false, w, []).
Proof. intros H. unfold is_server_really_running. run_all. reflexivity. Qed.

Lemma liveness_unparseable (w : World) (text : string) :
  pid_file w = Some text ->
  parse_int (strip text) = None ->
  is_server_really_running w
  = (Ok false, set_pid_file None w, [stale_warning; FsUnlink PID_FILE]).
Proof. intros H1 H2. unfold is_server_really_running. run_all. reflexivity. Qed.

Lemma liveness_alive (w : World) (text : string) (pid : Z) :
  pid_file w = Some text ->
  parse_int (strip text) = Some pid ->
  pid_t_ok pid = true ->
  kernel w pid = Delivered ->
  is_server_really_running w = (Ok true, w, [Kill pid SIG0]).
Proof. intros H1 H2 H3 H4. unfold is_server_really_running. run_all. reflexivity. Qed.

Lemma liveness_dead (w : World) (text : string) (pid : Z) :
  pid_file w = Some text ->
  parse_int (strip text) = Some pid ->
  pid_t_ok pid = true ->
  kernel w pid = NoSuchProcess ->
  is_server_really_running w
  = (Ok false, set_pid_file None w, [Kill pid SIG0; stale_warning; FsUnlink PID_FILE]).
Proof. intros H1 H2 H3 H4. unfold is_server_really_running. run_all. reflexivity. Qed.

(** The two probe failures no [except] clause of the check names. *)
Lemma liveness_not_permitted (w : World) (text : string) (pid : Z) :
  pid_file w = Some text ->
  parse_int (strip text) = Some pid ->
  pid_t_ok pid = true ->
  kernel w pid = NotPermitted ->
  is_server_really_running w
  = (Raised (PermissionError "[Errno 1] Operation not permitted"), w, [Kill pid SIG0]).
Proof. intros H1 H2 H3 H4. unfold is_server_really_running. run_all. reflexivity. Qed.

Lemma liveness_out_of_range (w : World) (text : string) (pid : Z) :
  pid_file w = Some text ->
  parse_int (strip text) = Some pid ->
  pid_t_ok pid = false ->
  is_server_really_running w
  = (Raised (OverflowError (pid_overflow_text pid)), w, [Kill pid SIG0]).
Proof. intros H1 H2 H3. unfold is_server_really_running. run_all. reflexivity. Qed.

(** The probe of a target the caller is in succeeds like any other. *)
Lemma liveness_alive_self (w : World) (text : string) (pid : Z) :
  pid_file w = Some text ->
  parse_int (strip text) = Some pid ->
  pid_t_ok pid = true ->
  kernel w pid = ReachesCaller ->
  is_server_really_running w = (Ok true, w, [Kill pid SIG0]).
Proof. intros H1 H2 H3 H4. unfold is_server_really_running. run_all. reflexivity. Qed.

(** Every way the liveness check can end. *)
Lemma liveness_cases (w : World) :
  (exists tr, is_server_really_running w = (Ok false, set_pid_file None w, tr)
              /\ forallb probe_or_cleanup tr = true)
  \/ (exists text pid,
        pid_file w = Some text /\ parse_int (strip text) = Some pid
        /\ pid_t_ok pid = true
        /\ (kernel w pid = Delivered \/ kernel w pid = ReachesCaller)
        /\ is_server_really_running w = (Ok true, w, [Kill pid SIG0]))
  \/ (exists e pid, is_server_really_running w = (Raised e, w, [Kill pid SIG0])).
Proof.
  destruct (pid_file w) as [text|] eqn:H1.
  - destruct (parse_int (strip text)) as [pid|] eqn:H2.
    + destruct (pid_t_ok pid) eqn:H3.
      * destruct (kernel w pid) eqn:H4.
        -- right. left. exists text, pid.
           rewrite (liveness_alive w text pid) by assumption. repeat split; auto.
        -- left. eexists. now rewrite (liveness_dead w text pid).
        -- right. right. do 2 eexists.
           now rewrite (liveness_not_permitted w text pid).
        -- right. left. exists text, pid.
           rewrite (liveness_alive_self w text pid) by assumption. repeat split; auto.
      * right. right. do 2 eexists.
        now rewrite (liveness_out_of_range w text pid).
    + left. eexists. now rewrite (liveness_unparseable w text).
  - left. exists []. rewrite (liveness_no_record w H1).
    now rewrite set_pid_file_same.
Qed.


(** *** status *)

Lemma display_lines_prints (lines : list string) (w : World) :
  exists tr, display_lines lines w = (Ok tt, w, tr)
             /\ forallb reports_only tr = true.
Proof.
  induction lines as [|line rest [tr [E Htr]]]; cbn [display_lines].
  - exists []. split; reflexivity.
  - destruct (display_line line) as [text|].
    + exists (Out text :: tr). run. rewrite E. split; [reflexivity | exact Htr].
    + exists tr. auto.
Qed.

(** The configuration part never fails and only prints. *)
Lemma show_configuration_prints (w : World) :
  exists tr, show_configuration w = (Ok tt, w, tr)
             /\ forallb reports_only tr = true.
Proof.
  unfold show_configuration. run.
  destruct (dotenv_file w) as [content|].
  - destruct (readlines content) as [|l ls] eqn:E.
    + eexists. split; reflexivity.
    + destruct (display_lines_prints (l :: ls) w) as [tr [E' Htr]].
      rewrite E'. eexists. split; [reflexivity | exact Htr].
  - eexists. split; reflexivity.
Qed.

(** The loop over the lines prints the displayed texts, in order. *)
Lemma display_lines_trace (lines : list string) (w : World) :
  display_lines lines w = (Ok tt, w, map Out (displayed lines)).
Proof.
  induction lines as [|line rest IH]; cbn [display_lines displayed].
  - reflexivity.
  - destruct (display_line line) as [text|]; [|exact IH].
    run. rewrite IH. reflexivity.
Qed.

(** What the configuration part prints when there is a settings file. *)
Lemma show_configuration_some (w : World) (content : string) :
  dotenv_file w = Some content ->
  show_configuration w
  = (Ok tt, w,
     configuration_heading
       :: match readlines content with
          | [] => [empty_settings_line]
          | l :: ls => map Out (displayed (l :: ls))
          end).
Proof.
  intros H. unfold show_configuration. run. rewrite H.
  destruct (readlines content) as [|l ls].
  - reflexivity.
  - rewrite display_lines_trace. reflexivity.
Qed.

(** The configuration part never fails, leaves the world as it is and
    prints the configuration lines. *)
Lemma show_configuration_trace (w : World) :
  show_configuration w = (Ok tt, w, configuration_lines w).
Proof.
  unfold configuration_lines.
  destruct (dotenv_file w) as [content|] eqn:H.
  - exact (show_configuration_some w content H).
  - unfold show_configuration. run. rewrite H. reflexivity.
Qed.

Lemma reports_only_configuration_lines (w : World) :
  forallb reports_only (configuration_lines w) = true.
Proof.
  destruct (show_configuration_prints w) as (tr & E & H).
  rewrite show_configuration_trace in E. injection E as <-. exact H.
Qed.

(** [status] after a liveness check that found nothing alive. *)
Lemma status_after_stopped (w w' : World) (tr0 trc : list Event) :
  is_server_really_running w = (Ok false, w', tr0) ->
  show_configuration w' = (Ok tt, w', trc) ->
  status w = (Ok tt, w', status_heading ++ tr0 ++ stopped_line :: trc).
Proof.
  intros E Ec. unfold status. run. rewrite E. run. rewrite Ec. reflexivity.
Qed.

(** [status] after a liveness check that found the server. *)
Lemma status_after_running (w : World) (text : string) (pid : Z)
      (tr0 trc : list Event) :
  is_server_really_running w = (Ok true, w, tr0) ->
  pid_file w = Some text ->
  parse_int (strip text) = Some pid ->
  show_configuration w = (Ok tt, w, trc) ->
  status w = (Ok tt, w, status_heading ++ tr0 ++ running_lines w pid ++ trc).
Proof.
  intros E H1 H2 Ec. unfold status, running_lines. run. rewrite E. run.
  rewrite H1. run. rewrite H2. run.
  destruct (log_file w); run; rewrite Ec; cbn; rewrite <- ?app_assoc; reflexivity.
Qed.

(** [status] when the liveness check lets an exception pass. *)
Lemma status_after_raised (w w' : World) (tr0 : list Event) (e : Exn) :
  is_server_really_running w = (Raised e, w', tr0) ->
  status w = (Raised e, w', status_heading ++ tr0).
Proof. intros E. unfold status. run. rewrite E. reflexivity. Qed.

Lemma reports_only_running_lines (w : World) (pid : Z) :
  forallb reports_only (running_lines w pid) = true.
Proof. unfold running_lines. now destruct (log_file w). Qed.

(** *** stop *)

Lemma stop_no_record (w : World) :
  pid_file w = None ->
  stop w = (Raised (SystemExit 1), w, [stop_heading; not_running_line]).
Proof. intros H. unfold stop. run_all. reflexivity. Qed.

Lemma stop_corrupt (w : World) (text : string) :
  pid_file w = Some text ->
  parse_int (strip text) = None ->
  stop w = (Raised (SystemExit 1), set_pid_file None w,
            [stop_heading; corrupt_line; FsUnlink PID_FILE]).
Proof. intros H1 H2. unfold stop. run_all. reflexivity. Qed.

Lemma stop_delivered (w : World) (text : string) (pid : Z) :
  pid_file w = Some text ->
  parse_int (strip text) = Some pid ->
  pid_t_ok pid = true ->
  kernel w pid = Delivered ->
  stop w = (Ok tt, set_pid_file None w,
            stop_heading :: Kill pid SIGTERM :: signal_sent_line pid :: stop_closing).
Proof. intros H1 H2 H3 H4. unfold stop. run_all. reflexivity. Qed.

Lemma stop_already_dead (w : World) (text : string) (pid : Z) :
  pid_file w = Some text ->
  parse_int (strip text) = Some pid ->
  pid_t_ok pid = true ->
  kernel w pid = NoSuchProcess ->
  stop w = (Ok tt, set_pid_file None w,
            stop_heading :: Kill pid SIGTERM :: already_dead_line pid :: stop_closing).
Proof. intros H1 H2 H3 H4. unfold stop. run_all. reflexivity. Qed.

Lemma stop_not_permitted (w : World) (text : string) (pid : Z) :
  pid_file w = Some text ->
  parse_int (strip text) = Some pid ->
  pid_t_ok pid = true ->
  kernel w pid = NotPermitted ->
  stop w = (Raised (SystemExit 1), set_pid_file None w,
            stop_heading :: Kill pid SIGTERM
              :: stop_failed_line "[Errno 1] Operation not permitted" :: stop_closing).
Proof. intros H1 H2 H3 H4. unfold stop. run_all. reflexivity. Qed.

Lemma stop_out_of_range (w : World) (text : string) (pid : Z) :
  pid_file w = Some text ->
  parse_int (strip text) = Some pid ->
  pid_t_ok pid = false ->
  stop w = (Raised (SystemExit 1), set_pid_file None w,
            stop_heading :: Kill pid SIGTERM
              :: stop_failed_line (pid_overflow_text pid)
              :: stop_closing).
Proof. intros H1 H2 H3. unfold stop. run_all. reflexivity. Qed.

(** The signal reaches [stop] itself: the run ends inside [os.kill]. *)
Lemma stop_reaches_caller (w : World) (text : string) (pid : Z) :
  pid_file w = Some text ->
  parse_int (strip text) = Some pid ->
  pid_t_ok pid = true ->
  kernel w pid = ReachesCaller ->
  stop w = (Raised Terminated, w, [stop_heading; Kill pid SIGTERM]).
Proof. intros H1 H2 H3 H4. unfold stop. run_all. reflexivity. Qed.

(** Once a process id was read from the record, every way out of [stop]
    goes through the signal and through the removal of the record,
    unless the signal ends [stop] itself. *)
Lemma stop_parsed (w : World) (text : string) (pid : Z) :
  pid_file w = Some text ->
  parse_int (strip text) = Some pid ->
  (pid_t_ok pid = true /\ kernel w pid = ReachesCaller
   /\ stop w = (Raised Terminated, w, [stop_heading; Kill pid SIGTERM]))
  \/ ((pid_t_ok pid = false \/ kernel w pid <> ReachesCaller)
      /\ exists r line,
           stop w = (r, set_pid_file None w,
                     stop_heading :: Kill pid SIGTERM :: line :: stop_closing)
           /\ (r = Ok tt \/ r = Raised (SystemExit 1))).
Proof.
  intros H1 H2.
  destruct (pid_t_ok pid) eqn:H3.
  - destruct (kernel w pid) eqn:H4.
    + right. split; [right; discriminate|].
      rewrite (stop_delivered w text pid) by assumption. eauto.
    + right. split; [right; discriminate|].
      rewrite (stop_already_dead w text pid) by assumption. eauto.
    + right. split; [right; discriminate|].
      rewrite (stop_not_permitted w text pid) by assumption. eauto.
    + left. rewrite (stop_reaches_caller w text pid) by assumption. auto.
  - right. split; [now left|].
    rewrite (stop_out_of_range w text pid) by assumption. eauto.
Qed.

(** *** start: its parts *)

(** The setup changes nothing but the virtual environment, and only runs
    programs and prints. *)
Lemma setup_environment_frame (ext : Externals) (w : World) :
  exists r b tr,
    setup_environment ext w = (r, set_venv_isdir b w, tr)
    /\ forallb console_or_run tr = true.
Proof.
  assert (Hw : forall (r : Result unit) tr, forallb console_or_run tr = true ->
               exists r' b tr', (r, w, tr) = (r', set_venv_isdir b w, tr')
                                /\ forallb console_or_run tr' = true).
  { intros r tr H. exists r, (venv_isdir w), tr.
    now rewrite set_venv_isdir_same. }
  unfold setup_environment. run_sub.
  destruct (venv_isdir w) eqn:Ev; run_sub.
  - destruct (run_pip ext) as [rc err|e]; run_sub.
    + destruct (Z.eqb rc 0); run_sub; apply Hw; reflexivity.
    + destruct e; run_sub; apply Hw; reflexivity.
  - destruct (run_venv ext) as [rc err|e]; run_sub.
    + destruct (Z.eqb rc 0); run_sub.
      * destruct (run_pip ext) as [rc' err'|e]; run_sub.
        -- destruct (Z.eqb rc' 0); run_sub; do 3 eexists; split; reflexivity.
        -- destruct e; run_sub; do 3 eexists; split; reflexivity.
      * apply Hw; reflexivity.
    + destruct e; run_sub; apply Hw; reflexivity.
Qed.


Lemma run_background_started (ext : Externals) (w : World) (pid : Z) :
  popen_server ext = Started pid ->
  exists tr,
    run_background ext w
    = (Ok tt, launched pid w,
       background_heading :: FsWrite LOG_FILE "" :: Popen command
         :: FsWrite PID_FILE (str_of_int pid) :: tr)
    /\ forallb console_or_run tr = true.
Proof.
  intros H. unfold run_background, launched. run_sub. rewrite H. run_sub.
  eexists. split; reflexivity.
Qed.

Lemma run_background_failed (ext : Externals) (w : World) (e : Exn) :
  popen_server ext = PopenRaises e ->
  exists tr,
    run_background ext w
    = (Raised (if is_Exception e then SystemExit 1 else e),
       set_log_file (Some "") w,
       background_heading :: FsWrite LOG_FILE "" :: Popen command :: tr)
    /\ forallb console_or_run tr = true.
Proof.
  intros H. unfold run_background. run_sub. rewrite H. run_sub.
  destruct e; run_sub; eexists; split; reflexivity.
Qed.

(** *** start: the whole command *)

Lemma start_conflict (ext : Externals) (w : World) :
  start true true ext w = (Raised (SystemExit 1), w, [start_heading; conflict_line]).
Proof. reflexivity. Qed.

Lemma start_liveness_raised (ext : Externals)
      (w w1 : World) (tr0 : list Event) (e : Exn) :
  is_server_really_running w = (Raised e, w1, tr0) ->
  start false false ext w = (Raised e, w1, start_heading :: tr0).
Proof.
  intros E0. unfold start. run. rewrite E0. run. reflexivity.
Qed.

Lemma start_setup_raised (ext : Externals)
      (w w1 w2 : World) (tr0 tr1 : list Event) (e : Exn) :
  is_server_really_running w = (Ok false, w1, tr0) ->
  setup_environment ext w1 = (Raised e, w2, tr1) ->
  start false false ext w = (Raised e, w2, start_heading :: tr0 ++ tr1).
Proof.
  intros E0 E1. unfold start. run. rewrite E0. run. rewrite E1. run. reflexivity.
Qed.

(** In the background, when nothing alive is tracked and the setup went
    through, the launch decides. *)
Lemma start_background_raised (auto : bool) (ext : Externals)
      (w w1 w2 w3 : World) (tr0 tr1 tr3 : list Event) (e : Exn) :
  is_server_really_running w = (Ok false, w1, tr0) ->
  setup_environment ext w1 = (Ok tt, w2, tr1) ->
  run_background ext w2 = (Raised e, w3, tr3) ->
  start false auto ext w = (Raised e, w3, start_heading :: tr0 ++ tr1 ++ tr3).
Proof.
  intros E0 E1 E3. unfold start. run. rewrite E0. run. rewrite E1. run.
  rewrite E3. run. reflexivity.
Qed.

Lemma start_background_done (ext : Externals)
      (w w1 w2 w3 : World) (tr0 tr1 tr3 : list Event) :
  is_server_really_running w = (Ok false, w1, tr0) ->
  setup_environment ext w1 = (Ok tt, w2, tr1) ->
  run_background ext w2 = (Ok tt, w3, tr3) ->
  start false false ext w = (Ok tt, w3, start_heading :: tr0 ++ tr1 ++ tr3).
Proof.
  intros E0 E1 E3. unfold start. run. rewrite E0. run. rewrite E1. run.
  rewrite E3. run. cbn. now rewrite !app_nil_r.
Qed.



(** [start] without [--auto] when the probe of the recorded process
    succeeds. *)
Lemma start_already_running_probe (foreground : bool) (ext : Externals) (w : World)
      (text : string) (pid : Z) :
  pid_file w = Some text ->
  parse_int (strip text) = Some pid ->
  pid_t_ok pid = true ->
  kernel w pid = Delivered \/ kernel w pid = ReachesCaller ->
  exists trc,
    show_configuration w = (Ok tt, w, trc)
    /\ forallb reports_only trc = true
    /\ start foreground false ext w
       = (Raised (SystemExit 0), w,
          start_heading :: Kill pid SIG0 :: already_running_line
            :: status_heading ++ Kill pid SIG0 :: running_lines w pid ++ trc).
Proof.
  intros H1 H2 H3 H4.
  assert (E : is_server_really_running w = (Ok true, w, [Kill pid SIG0])).
  { destruct H4 as [H4|H4].
    - exact (liveness_alive w text pid H1 H2 H3 H4).
    - exact (liveness_alive_self w text pid H1 H2 H3 H4). }
  destruct (show_configuration_prints w) as (trc & Ec & Hc).
  exists trc. split; [exact Ec|]. split; [exact Hc|].
  unfold start. destruct foreground; run; rewrite E; run;
    rewrite (status_after_running w text pid _ trc E H1 H2 Ec); run;
    cbn; now rewrite !app_nil_r.
Qed.

(** [start] without [--auto] when the record names a live process. *)
Lemma start_already_running (foreground : bool) (ext : Externals) (w : World)
      (text : string) (pid : Z) :
  pid_file w = Some text ->
  parse_int (strip text) = Some pid ->
  pid_t_ok pid = true ->
  kernel w pid = Delivered ->
  exists trc,
    show_configuration w = (Ok tt, w, trc)
    /\ forallb reports_only trc = true
    /\ start foreground false ext w
       = (Raised (SystemExit 0), w,
          start_heading :: Kill pid SIG0 :: already_running_line
            :: status_heading ++ Kill pid SIG0 :: running_lines w pid ++ trc).
Proof.
  intros H1 H2 H3 H4.
  exact (start_already_running_probe foreground ext w text pid H1 H2 H3 (or_introl H4)).
Qed.

(** A background [start] that returns has launched the server. *)
Lemma start_background_returned (ext : Externals) (w w1 : World) (tr : list Event) :
  start false false ext w = (Ok tt, w1, tr) ->
  exists pid, popen_server ext = Started pid
              /\ pid_file w1 = Some (str_of_int pid)
              /\ kernel w1 pid = Delivered
              /\ filter is_launch tr = [Popen command].
Proof.
  intros H.
  destruct (liveness_cases w)
    as [(tr0 & E0 & H0)|[(t & p & H1 & H2 & H3 & H4 & _)|(e & p & E0)]].
  - destruct (setup_environment_frame ext (set_pid_file None w))
      as (r & b & tr1 & E1 & Ht).
    destruct r as [[]|e].
    + destruct (popen_server ext) as [pid|e] eqn:Hp.
      * destruct (run_background_started ext
                    (set_venv_isdir b (set_pid_file None w)) pid Hp)
          as (tr3 & E3 & H3).
        rewrite (start_background_done ext _ _ _ _ _ _ _ E0 E1 E3) in H.
        inversion H; subst. exists pid. repeat split.
        -- cbn. now rewrite Z.eqb_refl.
        -- cbn. rewrite !filter_app.
           rewrite (forallb_filter_nil _ _ _ probe_or_cleanup_not_popen H0).
           rewrite (forallb_filter_nil _ _ _ console_or_run_not_popen Ht).
           cbn. now rewrite (forallb_filter_nil _ _ _ console_or_run_not_popen H3).
      * destruct (run_background_failed ext
                    (set_venv_isdir b (set_pid_file None w)) e Hp)
          as (tr3 & E3 & H3).
        rewrite (start_background_raised false ext _ _ _ _ _ _ _ _ E0 E1 E3) in H.
        discriminate.
    + rewrite (start_setup_raised ext _ _ _ _ _ _ E0 E1) in H. discriminate.
  - destruct (start_already_running_probe false ext w t p H1 H2 H3 H4)
      as (trc & _ & _ & E).
    rewrite E in H. discriminate.
  - rewrite (start_liveness_raised ext _ _ _ _ E0) in H. discriminate.
Qed.

End CliFacts.

(** ** The supervisor: the properties of the specification *)

Module CliSpec.
Import PyStr PyStrFacts Cli Vocabulary CliFacts.
Local Open Scope list_scope.

(** *** Stop *)

(** C3: without a record [stop] exits with status 1 after the
    "not running" warning and changes nothing; with a record that does
    not read as an integer it reports the corruption, removes the record
    and exits with status 1; otherwise it calls [os.kill] with SIGTERM on
    the process id it read; a process that is already gone is a warning
    on the console and the call returns normally, as it does when the
    signal is delivered to another process, and in both cases the record
    is gone. When the signal reaches [stop] itself, [stop] is ended
    inside [os.kill] and does not return. The record is a text
    [parse_int] reads as Python does. *)
Theorem stop_outcomes (w : World) :
  plain_record w = true ->
  own_group w ->
  (pid_file w = None ->
   stop w = (Raised (SystemExit 1), w, [stop_heading; not_running_line]))
  /\ (forall text,
        pid_file w = Some text -> parse_int (strip text) = None ->
        stop w = (Raised (SystemExit 1), set_pid_file None w,
                  [stop_heading; corrupt_line; FsUnlink PID_FILE])
        /\ pid_file (world_of (stop w)) = None)
  /\ (forall text pid,
        pid_file w = Some text -> parse_int (strip text) = Some pid ->
        In (Kill pid SIGTERM) (trace_of (stop w)))
  /\ (forall text pid,
        pid_file w = Some text -> parse_int (strip text) = Some pid ->
        pid_t_ok pid = true -> kernel w pid = NoSuchProcess ->
        stop w = (Ok tt, set_pid_file None w,
                  stop_heading :: Kill pid SIGTERM :: already_dead_line pid
                    :: stop_closing)
        /\ pid_file (world_of (stop w)) = None)
  /\ (forall text pid,
        pid_file w = Some text -> parse_int (strip text) = Some pid ->
        pid_t_ok pid = true -> kernel w pid = Delivered ->
        stop w = (Ok tt, set_pid_file None w,
                  stop_heading :: Kill pid SIGTERM :: signal_sent_line pid
                    :: stop_closing)
        /\ pid_file (world_of (stop w)) = None)
  /\ (forall text pid,
        pid_file w = Some text -> parse_int (strip text) = Some pid ->
        pid_t_ok pid = true -> kernel w pid = ReachesCaller ->
        stop w = (Raised Terminated, w, [stop_heading; Kill pid SIGTERM])).
Proof.
  intros _ _.
  split; [|split; [|split; [|split; [|split]]]].
  - apply stop_no_record.
  - intros text H1 H2. rewrite (stop_corrupt w text H1 H2). split; reflexivity.
  - intros text pid H1 H2.
    destruct (stop_parsed w text pid H1 H2)
      as [(_ & _ & E)|(_ & r & line & E & _)]; rewrite E; cbn; auto.
  - intros text pid H1 H2 H3 H4.
    rewrite (stop_already_dead w text pid H1 H2 H3 H4). split; reflexivity.
  - intros text pid H1 H2 H3 H4.
    rewrite (stop_delivered w text pid H1 H2 H3 H4). split; reflexivity.
  - intros text pid H1 H2 H3 H4.
    exact (stop_reaches_caller w text pid H1 H2 H3 H4).
Qed.

(** The four outcomes of C3 on the example machine. *)
Lemma stop_outcomes_witness :
  stop (example_world None None)
  = (Raised (SystemExit 1), example_world None None, [stop_heading; not_running_line])
  /\ pid_file (world_of (stop (example_world (Some "not-a-pid") None))) = None
  /\ In (Kill 4242 SIGTERM) (trace_of (stop (example_world (Some "4242") None)))
  /\ result_of (stop (example_world (Some "77") None)) = Ok tt
  /\ result_of (stop (example_world (Some "4242") None)) = Ok tt.
Proof.
  split; [|split; [|split; [|split]]].
  - apply (proj1 (stop_outcomes (example_world None None) eq_refl eq_refl)).
    reflexivity.
  - apply (proj1 (proj2 (stop_outcomes (example_world (Some "not-a-pid") None)
                                       eq_refl eq_refl))
                 "not-a-pid"); reflexivity.
  - apply (proj1 (proj2 (proj2 (stop_outcomes (example_world (Some "4242") None)
                                              eq_refl eq_refl)))
                 "4242" 4242); reflexivity.
  - rewrite (proj1 (proj1 (proj2 (proj2 (proj2
               (stop_outcomes (example_world (Some "77") None) eq_refl eq_refl))))
               "77" 77 eq_refl eq_refl eq_refl eq_refl)).
    reflexivity.
  - rewrite (proj1 (proj1 (proj2 (proj2 (proj2 (proj2
               (stop_outcomes (example_world (Some "4242") None) eq_refl eq_refl)))))
               "4242" 4242 eq_refl eq_refl eq_refl eq_refl)).
    reflexivity.
Defined.




(** *** Status and the liveness check *)

(** The probe failures the liveness check names (no record, a record
    that does not read as an integer, no such process) end in "Stopped",
    and a record that was there is removed. *)
Lemma status_cleans_stale_record (w : World) :
  pid_file w = None
  \/ (exists text, pid_file w = Some text /\ parse_int (strip text) = None)
  \/ (exists text pid, pid_file w = Some text /\ parse_int (strip text) = Some pid
                       /\ pid_t_ok pid = true /\ kernel w pid = NoSuchProcess) ->
  exists tr0 trc,
    status w = (Ok tt, set_pid_file None w, status_heading ++ tr0 ++ stopped_line :: trc)
    /\ forallb probe_or_cleanup tr0 = true
    /\ forallb reports_only trc = true.
Proof.
  intros H.
  assert (E : exists tr0, is_server_really_running w = (Ok false, set_pid_file None w, tr0)
                          /\ forallb probe_or_cleanup tr0 = true).
  { destruct H as [H|[(text & H1 & H2)|(text & pid & H1 & H2 & H3 & H4)]].
    - exists []. rewrite (liveness_no_record w H).
      now rewrite set_pid_file_same.
    - eexists. now rewrite (liveness_unparseable w text H1 H2).
    - eexists. now rewrite (liveness_dead w text pid H1 H2 H3 H4). }
  destruct E as (tr0 & E & H0).
  destruct (show_configuration_prints (set_pid_file None w)) as (trc & Ec & Hc).
  exists tr0, trc. split; [|auto].
  apply (status_after_stopped w _ tr0 trc E Ec).
Qed.

(** C4 at the failing inputs: a record that holds an integer no [pid_t]
    can hold, and a record that names a process of another user. The
    probe fails, no [except] clause of the liveness check matches, and
    [status] ends with the exception: "Stopped" is not reported and the
    record stays. *)
Theorem status_probe_error_escapes :
  status (example_world (Some "99999999999999999999") None)
  = (Raised (OverflowError "Python int too large to convert to C long"),
     example_world (Some "99999999999999999999") None,
     status_heading ++ [Kill 99999999999999999999 SIG0])
  /\ status (example_world (Some "1") None)
     = (Raised (PermissionError "[Errno 1] Operation not permitted"),
        example_world (Some "1") None,
        status_heading ++ [Kill 1 SIG0]).
Proof.
  split.
  - apply status_after_raised.
    exact (liveness_out_of_range (example_world (Some "99999999999999999999") None)
             "99999999999999999999" 99999999999999999999 eq_refl eq_refl eq_refl).
  - apply status_after_raised.
    apply (liveness_not_permitted _ "1"); reflexivity.
Qed.

(** *** Start *)

(** C5: with both flags [start] prints the error and exits with status
    1; the world is untouched and the trace holds the heading and the
    error line only: no program is run, no process is created, no file
    is written or removed. *)
Theorem start_conflicting_flags (ext : Externals) (w : World) :
  start true true ext w = (Raised (SystemExit 1), w, [start_heading; conflict_line])
  /\ existsb is_setup_or_launch (trace_of (start true true ext w)) = false
  /\ existsb is_fs (trace_of (start true true ext w)) = false.
Proof. repeat split. Qed.

(** C6: after a background [start] that returned, with the record as it
    left it and the launched process alive, a second background [start]
    reports the status and exits with status 0: after its heading and the
    probe it prints "Server is already running", then the status (the
    probe again, the process id of the server, the address, the log file
    when there is one, the configuration). It leaves the world as it is,
    runs no program and creates no process, so the server was launched
    once over the two calls. The texts printed from the machine hold no
    markup. *)
Theorem second_background_start_is_noop
        (ext1 ext2 : Externals) (w0 w1 w2 : World) (tr1 : list Event) (pid : Z) :
  start false false ext1 w0 = (Ok tt, w1, tr1) ->
  popen_server ext1 = Started pid ->
  pid_t_ok pid = true ->
  pid_file w2 = pid_file w1 ->
  kernel w2 pid = Delivered ->
  plain_console w2 = true ->
  start false false ext2 w2
  = (Raised (SystemExit 0), w2, already_running_report w2 pid)
  /\ forallb reports_only (already_running_report w2 pid) = true
  /\ filter is_setup_or_launch (already_running_report w2 pid) = []
  /\ filter is_fs (already_running_report w2 pid) = []
  /\ filter is_launch (tr1 ++ already_running_report w2 pid) = [Popen command].
Proof.
  intros H1 Hp Hok Hrec Halive _.
  destruct (start_background_returned ext1 w0 w1 tr1 H1) as (pid' & Hp' & Hf & _ & Hl).
  rewrite Hp in Hp'. injection Hp' as <-.
  rewrite Hf in Hrec.
  assert (Hparse : parse_int (strip (str_of_int pid)) = Some pid)
    by (rewrite strip_str_of_int; apply parse_int_str_of_int).
  destruct (start_already_running false ext2 w2 _ pid Hrec Hparse Hok Halive)
    as (trc & Ec & Hc & E).
  rewrite show_configuration_trace in Ec. injection Ec as <-.
  split; [exact E|].
  assert (Hrep : forallb reports_only (already_running_report w2 pid) = true).
  { unfold already_running_report.
    cbn -[running_lines configuration_lines].
    rewrite forallb_app, reports_only_running_lines. exact Hc. }
  split; [exact Hrep|].
  split; [exact (forallb_filter_nil _ _ _ reports_only_no_launch Hrep)|].
  split; [exact (forallb_filter_nil _ _ _ reports_only_no_fs Hrep)|].
  rewrite filter_app, Hl.
  now rewrite (forallb_filter_nil _ _ _ reports_only_not_popen Hrep).
Qed.

(** C6 on the example machine: the first call launches process 5151,
    the second call is made in the world the first one left. *)
Lemma second_background_start_is_noop_witness :
  result_of (start false false ext_ok (example_world None None)) = Ok tt
  /\ start false false ext_ok
           (world_of (start false false ext_ok (example_world None None)))
     = (Raised (SystemExit 0),
        world_of (start false false ext_ok (example_world None None)),
        [start_heading; Kill 5151 SIG0; already_running_line;
         Rule "[bold]Claude Code Plus Status[/bold]";
         Out "[bold]Server Status[/bold]";
         Kill 5151 SIG0;
         Out "[bold green][SUCCESS][/bold green] Running (PID: 5151)";
         Out "Address: http://localhost:8082";
         Out "Log File: /srv/app/.ccp.log";
         configuration_heading;
         Out "OPENAI_API_KEY='sk-0...pqrs'";
         Out "PREFERRED_PROVIDER=google"]).
Proof.
  split; [reflexivity|].
  exact (proj1 (second_background_start_is_noop
                  ext_ok ext_ok (example_world None None)
                  (world_of (start false false ext_ok (example_world None None)))
                  (world_of (start false false ext_ok (example_world None None)))
                  (trace_of (start false false ext_ok (example_world None None)))
                  5151 eq_refl eq_refl eq_refl eq_refl eq_refl eq_refl)).
Defined.

(** *** The log file *)






(** *** The configuration display *)

(** C7, as the specification words it, fails: the masked text is put
    between single quotes, so what is displayed for a credential is not
    first 4 + ellipsis + last 4 characters of the value. *)
Lemma masked_value_is_quoted :
  dotenv_file (example_world None None)
  = Some ("OPENAI_API_KEY=sk-0123456789abcdefghijklmnopqrs" ++ String LF
            ("PREFERRED_PROVIDER=google" ++ String LF ""))%string
  /\ len "sk-0123456789abcdefghijklmnopqrs" = 32
  /\ show_configuration (example_world None None)
     = (Ok tt, example_world None None,
        [configuration_heading;
         Out "OPENAI_API_KEY='sk-0...pqrs'";
         Out "PREFERRED_PROVIDER=google"])
  /\ ~ In (Out ("OPENAI_API_KEY=" ++ "sk-0" ++ "..." ++ "pqrs")%string)
          (trace_of (show_configuration (example_world None None))).
Proof.
  split; [reflexivity|]. split; [reflexivity|]. split; [reflexivity|].
  cbn. intros [H|[H|[H|[]]]]; discriminate.
Qed.

(** C7 (amended), for a settings file of ASCII characters without
    markup. The display never fails and prints, after its heading, one
    text for each line of the file that is not skipped, in the order of
    the file (a file without lines gets the "empty" warning). A line is
    skipped exactly when it is blank or starts with '#' once its
    surrounding whitespace is stripped. Of the other lines, stripped:
    when the line reads key=value, the key contains 'API_KEY' and the
    value has more than 8 characters, the text is the key, '=', and
    between single quotes the first 4 characters, '...' and the last 4
    characters of the value; when the key has no 'API_KEY' or the value
    has at most 8 characters, the text is the stripped line; a line
    without '=' is displayed as the stripped line too. *)
Theorem display_line_masking (w : World) (content : string) :
  dotenv_file w = Some content ->
  is_ascii content = true ->
  markup_free content = true ->
  show_configuration w
  = (Ok tt, w,
     configuration_heading
       :: match readlines content with
          | [] => [empty_settings_line]
          | l :: ls => map Out (displayed (l :: ls))
          end)
  /\ forall line, In line (readlines content) ->
       (display_line line = None
        <-> strip line = "" \/ startswith "#" (strip line) = true)
       /\ (forall key first4 middle last4,
              strip line = (key ++ "=" ++ first4 ++ middle ++ last4)%string ->
              startswith "#" key = false ->
              ~ Substring "=" key ->
              Substring "API_KEY" key ->
              String.length first4 = 4%nat -> String.length last4 = 4%nat ->
              middle <> "" ->
              display_line line
              = Some (key ++ "='" ++ first4 ++ "..." ++ last4 ++ "'")%string)
       /\ (forall key value,
              strip line = (key ++ "=" ++ value)%string ->
              startswith "#" (strip line) = false ->
              ~ Substring "=" key ->
              ~ Substring "API_KEY" key \/ (String.length value <= 8)%nat ->
              display_line line = Some (strip line))
       /\ (strip line <> "" ->
           startswith "#" (strip line) = false ->
           ~ Substring "=" (strip line) ->
           display_line line = Some (strip line)).
Proof.
  intros Hfile _ _. split; [exact (show_configuration_some w content Hfile)|].
  intros line _. unfold display_line.
  split; [|split; [|split]].
  - destruct (String.eqb_spec (strip line) "") as [E|E]; cbn [orb].
    + split; auto.
    + destruct (startswith "#" (strip line)) eqn:Hc.
      * split; auto.
      * split; [|intros [H|H]; [contradiction | discriminate]].
        destruct (split_once "="%char (strip line)) as [[key value]|];
          [destruct (andb _ _)|]; discriminate.
  - intros key a m b E Hc Hk Hapi Ha Hb Hm. rewrite E.
    assert (Hkey : key <> "").
    { intros ->. destruct Hapi as (x & y & Hxy). now destruct x. }
    assert (Hne : (key ++ "=" ++ a ++ m ++ b)%string <> "")
      by (destruct key; [contradiction | discriminate]).
    destruct (String.eqb_spec (key ++ "=" ++ a ++ m ++ b)%string "") as [E0|_];
      [contradiction|].
    assert (Hc' : startswith "#" (key ++ "=" ++ a ++ m ++ b)%string = false).
    { destruct (startswith "#" (key ++ "=" ++ a ++ m ++ b)%string) eqn:Hs;
        [|reflexivity].
      apply startswith_iff in Hs. destruct Hs as (post & Hs).
      destruct key as [|c key]; [contradiction|].
      cbn in Hs. injection Hs as -> _.
      assert (Hk' : startswith "#" (String "#" key) = true)
        by (apply startswith_iff; now exists key).
      congruence. }
    rewrite Hc'. cbn [orb].
    change (key ++ "=" ++ a ++ m ++ b)%string
      with (key ++ String "="%char (a ++ m ++ b))%string.
    rewrite (split_once_app _ _ _ Hk).
    apply contains_iff in Hapi. rewrite Hapi.
    assert (Hlen : Z.ltb 8 (len (a ++ m ++ b)) = true).
    { apply Z.ltb_lt. unfold len. rewrite !length_append, Ha, Hb.
      destruct m; [contradiction | cbn [String.length]; lia]. }
    rewrite Hlen. cbn [andb].
    rewrite <- Ha at 1. rewrite slice_to_app.
    rewrite <- (append_assoc a m b). rewrite <- Hb at 1. rewrite slice_last_app.
    reflexivity.
  - intros key value E Hc Hk H. rewrite Hc.
    assert (Hne : strip line <> "")
      by (rewrite E; destruct key; discriminate).
    destruct (String.eqb_spec (strip line) "") as [E0|_]; [contradiction|].
    cbn [orb]. rewrite E.
    change (key ++ "=" ++ value)%string with (key ++ String "="%char value)%string.
    rewrite (split_once_app _ _ _ Hk).
    destruct H as [H|H].
    + apply contains_false_iff in H. rewrite H. reflexivity.
    + assert (Hlen : Z.ltb 8 (len value) = false)
        by (apply Z.ltb_ge; unfold len; lia).
      rewrite Hlen, Bool.andb_false_r. reflexivity.
  - intros Hne Hc H. rewrite Hc.
    destruct (String.eqb_spec (strip line) "") as [E0|_]; [contradiction|].
    cbn [orb]. now rewrite (split_once_none _ _ H).
Qed.

(** C7 (amended) on the settings file of the example machine. *)
Lemma display_line_masking_witness :
  show_configuration (example_world None None)
  = (Ok tt, example_world None None,
     [configuration_heading;
      Out "OPENAI_API_KEY='sk-0...pqrs'";
      Out "PREFERRED_PROVIDER=google"])
  /\ display_line ("OPENAI_API_KEY=sk-0123456789abcdefghijklmnopqrs" ++ String LF "")
     = Some "OPENAI_API_KEY='sk-0...pqrs'"
  /\ display_line ("PREFERRED_PROVIDER=google" ++ String LF "")
     = Some "PREFERRED_PROVIDER=google".
Proof.
  destruct (display_line_masking (example_world None None) example_dotenv
              eq_refl eq_refl eq_refl) as (H1 & H2).
  split; [exact H1|]. split.
  - apply (proj1 (proj2 (H2 _ (or_introl eq_refl)))
                 "OPENAI_API_KEY" "sk-0" "123456789abcdefghijklmno" "pqrs").
    + reflexivity.
    + reflexivity.
    + apply contains_false_iff. reflexivity.
    + exists "OPENAI_", "". reflexivity.
    + reflexivity.
    + reflexivity.
    + discriminate.
  - apply (proj1 (proj2 (proj2 (H2 _ (or_intror (or_introl eq_refl)))))
                 "PREFERRED_PROVIDER" "google").
    + reflexivity.
    + reflexivity.
    + apply contains_false_iff. reflexivity.
    + left. apply contains_false_iff. reflexivity.
Defined.

End CliSpec.

(** ** The supervisor: further properties of the commands *)

Module CliMoreFacts.
Import PyStr PyStrFacts Cli Vocabulary MoreVocabulary CliFacts.
Local Open Scope list_scope.
Local Open Scope cmd_scope.

Lemma forallb_weaken {A} (p q : A -> bool) (l : list A) :
  (forall x, p x = true -> q x = true) ->
  forallb p l = true -> forallb q l = true.
Proof.
  intros Hpq. induction l as [|x l IH]; cbn; [reflexivity|].
  intros H. apply andb_prop in H. destruct H as [Hx Hl].
  now rewrite (Hpq x Hx), IH.
Qed.

Lemma reports_only_report_or_cleanup :
  forall ev, reports_only ev = true -> report_or_cleanup ev = true.
Proof. event_cases. Qed.

Lemma probe_or_cleanup_report_or_cleanup :
  forall ev, probe_or_cleanup ev = true -> report_or_cleanup ev = true.
Proof. event_cases. Qed.

Lemma report_or_cleanup_foreground :
  forall ev, report_or_cleanup ev = true -> foreground_event ev = true.
Proof. event_cases. Qed.

Lemma console_or_run_foreground_or_sleep :
  forall ev, console_or_run ev = true -> is_write ev = false.
Proof. event_cases. Qed.

Lemma report_or_cleanup_no_write :
  forall ev, report_or_cleanup ev = true -> is_write ev = false.
Proof. event_cases. Qed.

Lemma report_or_cleanup_no_sigterm :
  forall ev, report_or_cleanup ev = true -> is_sigterm ev = false.
Proof. event_cases. Qed.

Lemma report_or_cleanup_no_launch :
  forall ev, report_or_cleanup ev = true -> is_setup_or_launch ev = false.
Proof. event_cases. Qed.

Lemma foreground_no_write :
  forall ev, foreground_event ev = true -> is_write ev = false.
Proof. event_cases. Qed.

Lemma foreground_not_popen :
  forall ev, foreground_event ev = true -> is_launch ev = false.
Proof. event_cases. Qed.

Lemma foreground_no_sigterm :
  forall ev, foreground_event ev = true -> is_sigterm ev = false.
Proof. event_cases. Qed.

(** A [stop] that comes to an end leaves the world without a record. *)
Lemma stop_world (w : World) :
  result_of (stop w) <> Raised Terminated ->
  world_of (stop w) = set_pid_file None w.
Proof.
  intros Hr.
  destruct (pid_file w) as [text|] eqn:H1.
  - destruct (parse_int (strip text)) as [pid|] eqn:H2.
    + destruct (stop_parsed w text pid H1 H2)
        as [(_ & _ & E)|(_ & r & line & E & _)]; rewrite E in *.
      * now elim Hr.
      * reflexivity.
    + now rewrite (stop_corrupt w text H1 H2).
  - rewrite (stop_no_record w H1). cbn. now rewrite set_pid_file_same.
Qed.

(** Every way [status] can end. *)
Lemma status_cases (w : World) :
  (exists tr0 trc,
      status w = (Ok tt, set_pid_file None w, status_heading ++ tr0 ++ stopped_line :: trc)
      /\ forallb probe_or_cleanup tr0 = true /\ forallb reports_only trc = true)
  \/ (exists pid trc,
        pid_t_ok pid = true
        /\ status w = (Ok tt, w, status_heading ++ [Kill pid SIG0] ++ running_lines w pid ++ trc)
        /\ forallb reports_only trc = true)
  \/ (exists e pid,
        status w = (Raised e, w, status_heading ++ [Kill pid SIG0])
        /\ is_Exception e = true).
Proof.
  destruct (pid_file w) as [text|] eqn:H1.
  - destruct (parse_int (strip text)) as [pid|] eqn:H2.
    + destruct (pid_t_ok pid) eqn:H3.
      * destruct (kernel w pid) eqn:H4.
        -- right. left.
           destruct (show_configuration_prints w) as (trc & Ec & Hc).
           exists pid, trc. split; [exact H3|]. split; [|exact Hc].
           apply (status_after_running w text pid _ trc); auto.
           apply (liveness_alive w text pid); auto.
        -- left.
           destruct (show_configuration_prints (set_pid_file None w)) as (trc & Ec & Hc).
           exists [Kill pid SIG0; stale_warning; FsUnlink PID_FILE], trc.
           split; [|split; [reflexivity | exact Hc]].
           apply status_after_stopped; [|exact Ec].
           apply (liveness_dead w text pid); auto.
        -- right. right. do 2 eexists.
           split; [apply status_after_raised;
                   apply (liveness_not_permitted w text pid); auto | reflexivity].
        -- right. left.
           destruct (show_configuration_prints w) as (trc & Ec & Hc).
           exists pid, trc. split; [exact H3|]. split; [|exact Hc].
           apply (status_after_running w text pid _ trc); auto.
           apply (liveness_alive_self w text pid); auto.
      * right. right. do 2 eexists.
        split; [apply status_after_raised;
                apply (liveness_out_of_range w text pid); auto | reflexivity].
    + left.
      destruct (show_configuration_prints (set_pid_file None w)) as (trc & Ec & Hc).
      exists [stale_warning; FsUnlink PID_FILE], trc.
      split; [|split; [reflexivity | exact Hc]].
      apply status_after_stopped; [|exact Ec].
      apply (liveness_unparseable w text); auto.
  - left.
    destruct (show_configuration_prints w) as (trc & Ec & Hc).
    exists [], trc. split; [|split; [reflexivity | exact Hc]].
    rewrite (set_pid_file_same w None H1).
    apply status_after_stopped; [|exact Ec].
    now apply liveness_no_record.
Qed.

(** *** The parts of [start], outcome by outcome *)





(** The setup prints and runs programs, and nothing else. *)
Lemma setup_environment_prints_and_runs (ext : Externals) (w : World) :
  exists r b tr,
    setup_environment ext w = (r, set_venv_isdir b w, tr)
    /\ forallb foreground_event tr = true.
Proof.
  assert (Hw : forall (r : Result unit) tr, forallb foreground_event tr = true ->
               exists r' b tr', (r, w, tr) = (r', set_venv_isdir b w, tr')
                                /\ forallb foreground_event tr' = true).
  { intros r tr H. exists r, (venv_isdir w), tr.
    now rewrite set_venv_isdir_same. }
  unfold setup_environment. run_sub.
  destruct (venv_isdir w) eqn:Ev; run_sub.
  - destruct (run_pip ext) as [rc err|e]; run_sub.
    + destruct (Z.eqb rc 0); run_sub; apply Hw; reflexivity.
    + destruct e; run_sub; apply Hw; reflexivity.
  - destruct (run_venv ext) as [rc err|e]; run_sub.
    + destruct (Z.eqb rc 0); run_sub.
      * destruct (run_pip ext) as [rc' err'|e]; run_sub.
        -- destruct (Z.eqb rc' 0); run_sub; do 3 eexists; split; reflexivity.
        -- destruct e; run_sub; do 3 eexists; split; reflexivity.
      * apply Hw; reflexivity.
    + destruct e; run_sub; apply Hw; reflexivity.
Qed.



(** The foreground run leaves the world as it is. *)
Lemma run_foreground_cases (ext : Externals) (w : World) :
  exists r tr0 tr1,
    run_foreground ext w = (r, w, tr0 ++ Run foreground_command [] :: tr1)
    /\ forallb reports_only tr0 = true
    /\ forallb reports_only tr1 = true
    /\ (forall rc err, run_server ext = Completed rc err -> r = Ok tt)
    /\ (run_server ext = RunRaises KeyboardInterrupt -> r = Ok tt)
    /\ (forall e, run_server ext = RunRaises e -> is_Exception e = true ->
                  r = Raised (SystemExit 1)).
Proof.
  unfold run_foreground. run_sub.
  destruct (run_server ext) as [rc err|e]; run_sub.
  - eexists. eexists [_; _; _]. eexists. split; [reflexivity|].
    repeat split; discriminate.
  - destruct e; run_sub;
      (eexists; eexists [_; _; _]; eexists; split; [reflexivity|];
       repeat split; try discriminate; try reflexivity;
       intros e' He'; injection He' as <-; discriminate).
Qed.

(** The client part, outcome by outcome. *)
Lemma launch_client_missing (ext : Externals) (w : World) :
  which_claude ext = false ->
  exists tr,
    launch_client ext w = (Raised (SystemExit 1), w, client_heading ++ tr)
    /\ forallb reports_only tr = true.
Proof.
  intros H. unfold launch_client. run_sub. rewrite H. run_sub.
  eexists. split; reflexivity.
Qed.

Lemma launch_client_found (ext : Externals) (w : World) :
  which_claude ext = true ->
  exists r tr,
    launch_client ext w = (r, w, client_heading ++ client_run :: tr)
    /\ forallb reports_only tr = true
    /\ (ordinary_end (run_claude ext) = true ->
        r = Ok tt /\ exists tr', tr = tr' ++ client_closing).
Proof.
  intros H. unfold launch_client. run_sub. rewrite H. run_sub.
  destruct (run_claude ext) as [rc err|e]; run_sub.
  - destruct (Z.eqb rc 0); run_sub.
    + eexists. eexists. split; [reflexivity|]. split; [reflexivity|].
      intros _. split; [reflexivity|]. now exists [].
    + eexists. eexists. split; [reflexivity|]. split; [reflexivity|].
      intros _. split; [reflexivity|]. now eexists [_].
  - destruct e; run_sub;
      (eexists; eexists; split; [reflexivity|]; split; [reflexivity|];
       first [discriminate
             | intros _; split; [reflexivity|]; now eexists [_]]).
Qed.

(** *** [start] under any pair of flags that passes the first test *)

Lemma start_liveness_raised_any (foreground auto : bool) (ext : Externals)
      (w w1 : World) (tr0 : list Event) (e : Exn) :
  andb foreground auto = false ->
  is_server_really_running w = (Raised e, w1, tr0) ->
  start foreground auto ext w = (Raised e, w1, start_heading :: tr0).
Proof.
  intros Hf E0. unfold start.
  destruct foreground, auto; try discriminate; run; rewrite E0; run; reflexivity.
Qed.

Lemma start_setup_raised_any (foreground auto : bool) (ext : Externals)
      (w w1 w2 : World) (tr0 tr1 : list Event) (e : Exn) :
  andb foreground auto = false ->
  is_server_really_running w = (Ok false, w1, tr0) ->
  setup_environment ext w1 = (Raised e, w2, tr1) ->
  start foreground auto ext w = (Raised e, w2, start_heading :: tr0 ++ tr1).
Proof.
  intros Hf E0 E1. unfold start.
  destruct foreground, auto; try discriminate;
    run; rewrite E0; run; rewrite E1; run; reflexivity.
Qed.

Lemma start_foreground_run (ext : Externals)
      (w w1 w2 w3 : World) (tr0 tr1 tr3 : list Event) (r : Result unit) :
  is_server_really_running w = (Ok false, w1, tr0) ->
  setup_environment ext w1 = (Ok tt, w2, tr1) ->
  run_foreground ext w2 = (r, w3, tr3) ->
  start true false ext w = (r, w3, start_heading :: tr0 ++ tr1 ++ tr3).
Proof.
  intros E0 E1 E3. unfold start. run. rewrite E0. run. rewrite E1. run.
  rewrite E3. destruct r as [[]|e]; run; cbn; now rewrite ?app_nil_r.
Qed.

Lemma start_live_client (ext : Externals)
      (w w1 : World) (tr0 tr4 : list Event) (r : Result unit) :
  is_server_really_running w = (Ok true, w, tr0) ->
  launch_client ext w = (r, w1, tr4) ->
  start false true ext w = (r, w1, start_heading :: tr0 ++ tr4).
Proof.
  intros E0 E4. unfold start. run. rewrite E0. run. rewrite E4.
  cbn. now rewrite ?app_nil_r.
Qed.


End CliMoreFacts.

Module CliMoreSpec.
Import PyStr PyStrFacts Cli Vocabulary MoreVocabulary CliFacts CliMoreFacts.
Local Open Scope list_scope.

(** X1: [status] is read-only but for the stale record. Whatever the
    world, it leaves it as it is or only removes the record file; it
    prints, probes with signal 0 and removes the stale record, and
    nothing else: no file is written, no termination signal is sent, no
    program is run; and it never calls [sys.exit]. *)
Theorem status_is_read_only (w : World) :
  (world_of (status w) = w \/ world_of (status w) = set_pid_file None w)
  /\ forallb report_or_cleanup (trace_of (status w)) = true
  /\ existsb is_write (trace_of (status w)) = false
  /\ existsb is_sigterm (trace_of (status w)) = false
  /\ existsb is_setup_or_launch (trace_of (status w)) = false
  /\ (forall code, result_of (status w) <> Raised (SystemExit code)).
Proof.
  assert (H : (world_of (status w) = w \/ world_of (status w) = set_pid_file None w)
              /\ forallb report_or_cleanup (trace_of (status w)) = true
              /\ (forall code, result_of (status w) <> Raised (SystemExit code))).
  { destruct (status_cases w)
      as [(tr0 & trc & E & H0 & Hc)|[(pid & trc & _ & E & Hc)|(e & pid & E & He)]];
      rewrite E; cbn [result_of world_of trace_of fst snd].
    - split; [now right|]. split; [|discriminate].
      cbn. rewrite forallb_app.
      rewrite (forallb_weaken _ _ _ probe_or_cleanup_report_or_cleanup H0).
      cbn. apply (forallb_weaken _ _ _ reports_only_report_or_cleanup Hc).
    - split; [now left|]. split; [|discriminate].
      cbn -[running_lines]. rewrite forallb_app.
      rewrite (forallb_weaken _ _ _ reports_only_report_or_cleanup
                 (reports_only_running_lines w pid)).
      apply (forallb_weaken _ _ _ reports_only_report_or_cleanup Hc).
    - split; [now left|]. split; [reflexivity|].
      intros code Hx. injection Hx as ->. discriminate. }
  destruct H as (Hw & Ht & Hr).
  split; [exact Hw|]. split; [exact Ht|].
  split; [exact (forallb_excludes _ _ _ report_or_cleanup_no_write Ht)|].
  split; [exact (forallb_excludes _ _ _ report_or_cleanup_no_sigterm Ht)|].
  split; [exact (forallb_excludes _ _ _ report_or_cleanup_no_launch Ht)|exact Hr].
Qed.

(** X2: a second [stop] right after a [stop] that came to an end finds
    no record: it exits with status 1 after the "not running" warning
    and sends no signal, whatever the first one did. (A [stop] whose
    signal ends [stop] itself leaves the record; the record is a text
    [parse_int] reads as Python does.) *)
Theorem stop_twice (w : World) :
  plain_record w = true ->
  result_of (stop w) <> Raised Terminated ->
  stop (world_of (stop w))
  = (Raised (SystemExit 1), world_of (stop w), [stop_heading; not_running_line]).
Proof.
  intros _ Hr. apply stop_no_record. now rewrite (stop_world w Hr).
Qed.

Lemma stop_twice_witness :
  result_of (stop (example_world (Some "4242") None)) = Ok tt
  /\ stop (world_of (stop (example_world (Some "4242") None)))
     = (Raised (SystemExit 1), example_world None None,
        [stop_heading; not_running_line]).
Proof.
  split; [reflexivity|].
  exact (stop_twice (example_world (Some "4242") None) eq_refl
                    ltac:(discriminate)).
Defined.

(** X3: [status] right after a [stop] that came to an end reports
    "Stopped" without probing any process, then the configuration: the
    record is gone, so the answer is the same while the signalled
    process is still shutting down. The settings file holds no markup
    and the record is a text [parse_int] reads as Python does. *)
Theorem status_after_stop (w : World) :
  plain_record w = true ->
  plain_console w = true ->
  result_of (stop w) <> Raised Terminated ->
  status (world_of (stop w))
  = (Ok tt, world_of (stop w),
     status_heading ++ stopped_line :: configuration_lines (world_of (stop w)))
  /\ configuration_lines (world_of (stop w)) = configuration_lines w.
Proof.
  intros _ _ Hr. split.
  - apply (status_after_stopped _ _ []); [|apply show_configuration_trace].
    apply liveness_no_record. now rewrite (stop_world w Hr).
  - rewrite (stop_world w Hr). reflexivity.
Qed.

Lemma status_after_stop_witness :
  result_of (stop (example_world (Some "4242") None)) = Ok tt
  /\ status (world_of (stop (example_world (Some "4242") None)))
     = (Ok tt, example_world None None,
        [Rule "[bold]Claude Code Plus Status[/bold]";
         Out "[bold]Server Status[/bold]";
         stopped_line;
         configuration_heading;
         Out "OPENAI_API_KEY='sk-0...pqrs'";
         Out "PREFERRED_PROVIDER=google"]).
Proof.
  split; [reflexivity|].
  exact (proj1 (status_after_stop (example_world (Some "4242") None) eq_refl eq_refl
                                  ltac:(discriminate))).
Defined.

(** X4: the liveness check settles: once it has answered, asking again
    in the world it left gives the same answer and removes nothing; after
    the answer "not running" the second check is silent. *)
Theorem liveness_check_settles (w w' : World) (b : bool) (tr : list Event) :
  is_server_really_running w = (Ok b, w', tr) ->
  exists tr',
    is_server_really_running w' = (Ok b, w', tr')
    /\ existsb is_fs tr' = false
    /\ (b = false -> tr' = []).
Proof.
  intros E.
  destruct (liveness_cases w)
    as [(tr0 & E0 & _)|[(t & p & _ & _ & _ & _ & E0)|(e & p & E0)]];
    rewrite E0 in E; inversion E; subst.
  - exists []. split; [|split; reflexivity].
    now apply liveness_no_record.
  - exists [Kill p SIG0]. split; [exact E0|]. split; [reflexivity | discriminate].
Qed.

Lemma liveness_check_settles_witness :
  is_server_really_running (example_world (Some "77") None)
  = (Ok false, example_world None None, [Kill 77 SIG0; stale_warning; FsUnlink PID_FILE])
  /\ is_server_really_running (example_world None None)
     = (Ok false, example_world None None, []).
Proof.
  assert (E : is_server_really_running (example_world (Some "77") None)
              = (Ok false, example_world None None,
                 [Kill 77 SIG0; stale_warning; FsUnlink PID_FILE])) by reflexivity.
  split; [exact E|].
  destruct (liveness_check_settles _ _ _ _ E) as (tr' & E' & _ & H).
  rewrite E'. now rewrite (H eq_refl).
Defined.

(** X5: [stop] after a background [start] that returned, with the record
    as [start] left it: whether the server is still alive or already
    gone, [stop] returns normally, the one termination signal it sends
    goes to the process [start] launched, and the record is removed while
    the log file is kept. *)
Theorem stop_after_background_start
        (ext : Externals) (w0 w1 w2 : World) (tr1 : list Event) (pid : Z) :
  start false false ext w0 = (Ok tt, w1, tr1) ->
  popen_server ext = Started pid ->
  pid_t_ok pid = true ->
  pid_file w2 = pid_file w1 ->
  kernel w2 pid = Delivered \/ kernel w2 pid = NoSuchProcess ->
  result_of (stop w2) = Ok tt
  /\ filter is_sigterm (trace_of (stop w2)) = [Kill pid SIGTERM]
  /\ pid_file (world_of (stop w2)) = None
  /\ log_file (world_of (stop w2)) = log_file w2.
Proof.
  intros H1 Hp Hok Hrec Hk.
  destruct (start_background_returned ext w0 w1 tr1 H1) as (pid' & Hp' & Hf & _).
  rewrite Hp in Hp'. injection Hp' as <-.
  rewrite Hf in Hrec.
  assert (Hparse : parse_int (strip (str_of_int pid)) = Some pid)
    by (rewrite strip_str_of_int; apply parse_int_str_of_int).
  destruct Hk as [Hk|Hk].
  - rewrite (stop_delivered w2 _ pid Hrec Hparse Hok Hk). repeat split.
  - rewrite (stop_already_dead w2 _ pid Hrec Hparse Hok Hk). repeat split.
Qed.

Lemma stop_after_background_start_witness :
  result_of (start false false ext_ok (example_world None (Some "old log"))) = Ok tt
  /\ filter is_sigterm
       (trace_of (stop (world_of (start false false ext_ok
                                        (example_world None (Some "old log"))))))
     = [Kill 5151 SIGTERM]
  /\ log_file (world_of (stop (world_of (start false false ext_ok
                                        (example_world None (Some "old log"))))))
     = Some "".
Proof.
  split; [reflexivity|].
  destruct (stop_after_background_start
              ext_ok (example_world None (Some "old log"))
              (world_of (start false false ext_ok (example_world None (Some "old log"))))
              (world_of (start false false ext_ok (example_world None (Some "old log"))))
              (trace_of (start false false ext_ok (example_world None (Some "old log"))))
              5151 eq_refl eq_refl eq_refl eq_refl (or_introl eq_refl))
    as (_ & H2 & _ & H4).
  split; [exact H2 | exact H4].
Defined.

(** X6: a foreground [start] never writes the record file or the log
    file, never creates a detached process and never sends a termination
    signal, whatever the world and the external programs do: it prints,
    probes, removes a stale record and runs programs to their end. The
    log file and the process table are as before; the record is as before
    or removed. *)
Theorem foreground_start_writes_nothing (ext : Externals) (w : World) :
  forallb foreground_event (trace_of (start true false ext w)) = true
  /\ existsb is_write (trace_of (start true false ext w)) = false
  /\ existsb is_launch (trace_of (start true false ext w)) = false
  /\ existsb is_sigterm (trace_of (start true false ext w)) = false
  /\ log_file (world_of (start true false ext w)) = log_file w
  /\ kernel (world_of (start true false ext w)) = kernel w
  /\ (pid_file (world_of (start true false ext w)) = pid_file w
      \/ pid_file (world_of (start true false ext w)) = None).
Proof.
  assert (H : forallb foreground_event (trace_of (start true false ext w)) = true
              /\ log_file (world_of (start true false ext w)) = log_file w
              /\ kernel (world_of (start true false ext w)) = kernel w
              /\ (pid_file (world_of (start true false ext w)) = pid_file w
                  \/ pid_file (world_of (start true false ext w)) = None)).
  { destruct (liveness_cases w)
      as [(tr0 & E0 & H0)|[(t & p & H1 & H2 & H3 & H4 & _)|(e & p & E0)]].
    - assert (H0' : forallb foreground_event tr0 = true).
      { apply (forallb_weaken _ _ _ report_or_cleanup_foreground).
        apply (forallb_weaken _ _ _ probe_or_cleanup_report_or_cleanup H0). }
      destruct (setup_environment_prints_and_runs ext (set_pid_file None w))
        as (r & b & tr1 & E1 & Ht).
      destruct r as [[]|e].
      + destruct (run_foreground_cases ext (set_venv_isdir b (set_pid_file None w)))
          as (r & tra & trb & E3 & Ha & Hb & _).
        rewrite (start_foreground_run ext _ _ _ _ _ _ _ _ E0 E1 E3).
        cbn [result_of world_of trace_of fst snd]. split; [|cbn; auto].
        cbn. rewrite !forallb_app, H0', Ht. cbn.
        rewrite (forallb_weaken _ _ _ report_or_cleanup_foreground
                   (forallb_weaken _ _ _ reports_only_report_or_cleanup Ha)).
        rewrite (forallb_weaken _ _ _ report_or_cleanup_foreground
                   (forallb_weaken _ _ _ reports_only_report_or_cleanup Hb)).
        reflexivity.
      + rewrite (start_setup_raised_any true false ext _ _ _ _ _ _ eq_refl E0 E1).
        cbn [result_of world_of trace_of fst snd]. split; [|cbn; auto].
        cbn. now rewrite forallb_app, H0', Ht.
    - destruct (start_already_running_probe true ext w t p H1 H2 H3 H4)
        as (trc & _ & Hc & E).
      rewrite E. cbn [result_of world_of trace_of fst snd]. split; [|auto].
      apply (forallb_weaken _ _ _ report_or_cleanup_foreground).
      apply (forallb_weaken _ _ _ reports_only_report_or_cleanup).
      cbn -[running_lines]. rewrite forallb_app, reports_only_running_lines. exact Hc.
    - rewrite (start_liveness_raised_any true false ext _ _ _ _ eq_refl E0).
      cbn [result_of world_of trace_of fst snd]. split; [reflexivity | auto]. }
  destruct H as (Ht & Hl & Hk & Hp).
  split; [exact Ht|].
  split; [exact (forallb_excludes _ _ _ foreground_no_write Ht)|].
  split; [exact (forallb_excludes _ _ _ foreground_not_popen Ht)|].
  split; [exact (forallb_excludes _ _ _ foreground_no_sigterm Ht)|].
  auto.
Qed.









(** X11: [start --auto] when the record names a live process skips the
    setup and the launch of the server: the world stays as it is, no file
    is touched, nothing is spawned, and the only program run is the
    client, with ANTHROPIC_BASE_URL pointing at the proxy; when the
    client is not on the PATH nothing is run and [start] exits with
    status 1. *)
Theorem auto_start_with_live_server (ext : Externals) (w : World) (pid : Z) :
  tracked_alive w pid ->
  world_of (start false true ext w) = w
  /\ existsb is_fs (trace_of (start false true ext w)) = false
  /\ filter is_setup_or_launch (trace_of (start false true ext w))
     = (if which_claude ext then [client_run] else [])
  /\ (which_claude ext = false ->
      result_of (start false true ext w) = Raised (SystemExit 1))
  /\ (which_claude ext = true -> ordinary_end (run_claude ext) = true ->
      result_of (start false true ext w) = Ok tt).
Proof.
  intros (text & H1 & H2 & H3 & H4).
  pose proof (liveness_alive w text pid H1 H2 H3 H4) as E0.
  destruct (which_claude ext) eqn:Hw.
  - destruct (launch_client_found ext w Hw) as (r & tr & E4 & Ht & Ho).
    rewrite (start_live_client ext _ _ _ _ _ E0 E4).
    cbn [result_of world_of trace_of fst snd].
    split; [reflexivity|].
    split; [|split; [|split; [discriminate | intros _ Hord; exact (proj1 (Ho Hord))]]].
    + cbn. exact (forallb_excludes _ _ _ reports_only_no_fs Ht).
    + cbn. now rewrite (forallb_filter_nil _ _ _ reports_only_no_launch Ht).
  - destruct (launch_client_missing ext w Hw) as (tr & E4 & Ht).
    rewrite (start_live_client ext _ _ _ _ _ E0 E4).
    cbn [result_of world_of trace_of fst snd].
    split; [reflexivity|]. split; [|split; [|split; [reflexivity | discriminate]]].
    + cbn. exact (forallb_excludes _ _ _ reports_only_no_fs Ht).
    + cbn. exact (forallb_filter_nil _ _ _ reports_only_no_launch Ht).
Qed.

Lemma auto_start_with_live_server_witness :
  tracked_alive (example_world (Some "4242") None) 4242
  /\ world_of (start false true ext_ok (example_world (Some "4242") None))
     = example_world (Some "4242") None
  /\ filter is_setup_or_launch
       (trace_of (start false true ext_ok (example_world (Some "4242") None)))
     = [client_run].
Proof.
  assert (H : tracked_alive (example_world (Some "4242") None) 4242)
    by (exists "4242"; repeat split).
  split; [exact H|].
  destruct (auto_start_with_live_server ext_ok _ 4242 H) as (H1 & _ & H3 & _).
  split; [exact H1 | exact H3].
Defined.




End CliMoreSpec.

(** ** The remaining commands, the shell and the settings *)

Module HostFacts.
Import PyStr PyStrFacts Cli Vocabulary MoreVocabulary CliFacts CliMoreFacts.
Import CliRest Host HostVocabulary.
Local Open Scope list_scope.

(** Runs the operations of a command on a machine given by its fields
    (the projections of the machine are unfolded with the operations, so
    that the states in between stay small). *)
Ltac trun :=
  cbv beta iota zeta delta
    [tbind tret traise tsay tgets tmodify ttry_except lift read_rc rc_exists
     append_rc get_key set_key prompt_ask confirm_ask get_env_path
     bind ret raise emit gets modify try_except try_finally sys_exit
     print_info print_success print_warning print_error console_print
     console_rule exists_file negb andb orb is_Exception
     set_world set_settings
     world SHELL home zshrc bashrc settings new_env_path];
  cbn [world SHELL home zshrc bashrc settings new_env_path map app
       pid_file log_file log_path dotenv_file venv_isdir kernel
       rc_state set_rc_state].

Lemma set_world_same (m : Machine) : set_world (world m) m = m.
Proof. now destruct m. Qed.

(** *** logs *)



(** *** The shell check, case by case *)


Lemma check_unsupported (m : Machine) :
  rc_file_for (SHELL m) = None ->
  check_anthropic_base_url_in_shell_config m = (Ok tt, m, [no_rc_line "None"]).
Proof.
  intros H. unfold check_anthropic_base_url_in_shell_config.
  destruct m as [w sh h z b st p]. cbn [SHELL] in H. trun. rewrite H. trun.
  reflexivity.
Qed.

Lemma check_missing (m : Machine) (f : RcFile) (l : option Exn) :
  rc_file_for (SHELL m) = Some f ->
  rc_state f m = RcMissing l ->
  check_anthropic_base_url_in_shell_config m = (Ok tt, m, [no_rc_line (rc_path (home m) f)]).
Proof.
  intros H Hs. unfold check_anthropic_base_url_in_shell_config.
  destruct m as [w sh h z b st p]. cbn [SHELL] in H. trun. rewrite H. trun.
  destruct f; cbn [rc_state zshrc bashrc] in Hs; subst; trun; reflexivity.
Qed.

Lemma check_holds (m : Machine) (f : RcFile) (content : string) (l : option Exn) :
  rc_file_for (SHELL m) = Some f ->
  rc_state f m = RcHolds content l ->
  check_anthropic_base_url_in_shell_config m = (Ok tt, m,
             [if contains url_export content then found_line f else not_found_line f]).
Proof.
  intros H Hs. unfold check_anthropic_base_url_in_shell_config.
  destruct m as [w sh h z b st p]. cbn [SHELL] in H. trun. rewrite H. trun.
  destruct f; cbn [rc_state zshrc bashrc] in Hs; subst; trun;
    destruct (contains url_export content); reflexivity.
Qed.

Lemma check_denied (m : Machine) (f : RcFile) (e : Exn) :
  rc_file_for (SHELL m) = Some f ->
  rc_state f m = RcDenied e ->
  check_anthropic_base_url_in_shell_config m = if is_Exception e then (Ok tt, m, [unreadable_line e])
            else (Raised e, m, []).
Proof.
  intros H Hs. unfold check_anthropic_base_url_in_shell_config.
  destruct m as [w sh h z b st p]. cbn [SHELL] in H. trun. rewrite H. trun.
  destruct f; cbn [rc_state zshrc bashrc] in Hs; subst; trun;
    destruct e; reflexivity.
Qed.

(** *** The shell configuration of [init], case by case *)

Lemma configure_declined (m : Machine) :
  exists t, configure_shell false m = (Ok tt, m, t).
Proof.
  unfold configure_shell. destruct m as [w sh h z b st p]. trun.
  eexists. reflexivity.
Qed.

Lemma configure_unsupported (m : Machine) :
  rc_file_for (SHELL m) = None ->
  exists t, configure_shell true m = (Ok tt, m, t).
Proof.
  intros H. unfold configure_shell. destruct m as [w sh h z b st p].
  cbn [SHELL] in H. trun. rewrite H. trun. eexists. reflexivity.
Qed.

Lemma configure_already (m : Machine) (f : RcFile) (content : string) (l : option Exn) :
  rc_file_for (SHELL m) = Some f ->
  rc_state f m = RcHolds content l ->
  contains url_export content = true ->
  exists t, configure_shell true m = (Ok tt, m, t).
Proof.
  intros H Hs Hc. unfold configure_shell. destruct m as [w sh h z b st p].
  cbn [SHELL] in H. trun. rewrite H. trun.
  destruct f; cbn [rc_state zshrc bashrc] in Hs; subst; trun; rewrite Hc; trun;
    eexists; reflexivity.
Qed.

Lemma configure_appends (m : Machine) (f : RcFile) (content : string) :
  rc_file_for (SHELL m) = Some f ->
  rc_state f m = RcMissing None /\ content = ""
  \/ rc_state f m = RcHolds content None /\ contains url_export content = false ->
  exists t,
    configure_shell true m
    = (Ok tt, set_rc_state f (RcHolds (content ++ rc_addition)%string None) m, t).
Proof.
  intros H Hs. unfold configure_shell. destruct m as [w sh h z b st p].
  cbn [SHELL] in H. trun. rewrite H. trun.
  destruct Hs as [[Hs ->]|[Hs Hc]];
    destruct f; cbn [rc_state zshrc bashrc] in Hs; subst; trun;
    rewrite ?Hc; trun; eexists; reflexivity.
Qed.

Lemma configure_denied (m : Machine) (f : RcFile) (e : Exn) :
  rc_file_for (SHELL m) = Some f ->
  rc_state f m = RcDenied e ->
  configure_shell true m
  = (Raised e, m,
     [AskConfirm "Add ANTHROPIC_BASE_URL to your shell startup file? (Recommended)"]).
Proof.
  intros H Hs. unfold configure_shell. destruct m as [w sh h z b st p].
  cbn [SHELL] in H. trun. rewrite H. trun.
  destruct f; cbn [rc_state zshrc bashrc] in Hs; subst; trun; reflexivity.
Qed.

Lemma configure_locked (m : Machine) (f : RcFile) (e : Exn) :
  rc_file_for (SHELL m) = Some f ->
  locked_without_export (rc_state f m) e ->
  configure_shell true m
  = if is_Exception e
    then (Ok tt, m,
          [AskConfirm "Add ANTHROPIC_BASE_URL to your shell startup file? (Recommended)";
           write_failed_line (rc_path (home m) f) e])
    else (Raised e, m,
          [AskConfirm "Add ANTHROPIC_BASE_URL to your shell startup file? (Recommended)"]).
Proof.
  intros H Hs. unfold configure_shell, write_failed_line.
  destruct m as [w sh h z b st p].
  cbn [SHELL] in H. trun. rewrite H. trun.
  destruct Hs as [Hs|(content & Hs & Hc)];
    destruct f; cbn [rc_state zshrc bashrc] in Hs; subst; trun;
    rewrite ?Hc; trun; destruct e; reflexivity.
Qed.

(** Every state of a startup file is one of these. *)
Lemma rc_state_cases (st : RcState) :
  st = RcMissing None
  \/ (exists content l, st = RcHolds content l /\ contains url_export content = true)
  \/ (exists content, st = RcHolds content None /\ contains url_export content = false)
  \/ (exists e, st = RcDenied e)
  \/ (exists e, locked_without_export st e).
Proof.
  unfold locked_without_export.
  destruct st as [[e|]|content [e|]|e]; eauto 10;
    destruct (contains url_export content) eqn:Hc; eauto 10.
Qed.

(** The shell configuration touches nothing but the two startup files. *)
Lemma configure_shell_frame (answer : bool) (m : Machine) :
  exists r z b t,
    configure_shell answer m
    = (r, mkMachine (world m) (SHELL m) (home m) z b (settings m) (new_env_path m), t).
Proof.
  assert (Hm : forall r t, exists r' z b t',
             (r, m, t) = (r' : Result unit,
                          mkMachine (world m) (SHELL m) (home m) z b (settings m)
                                    (new_env_path m), t' : list Say)).
  { intros r t. exists r, (zshrc m), (bashrc m), t. now destruct m. }
  destruct answer.
  - destruct (rc_file_for (SHELL m)) as [f|] eqn:Hf.
    + destruct (rc_state_cases (rc_state f m))
        as [Hs|[(content & l & Hs & Hc)|[(content & Hs & Hc)|[(e & Hs)|(e & Hs)]]]].
      * destruct (configure_appends m f "" Hf (or_introl (conj Hs eq_refl))) as (t & E).
        rewrite E. destruct m, f; do 4 eexists; reflexivity.
      * destruct (configure_already m f content l Hf Hs Hc) as (t & E).
        rewrite E. apply Hm.
      * destruct (configure_appends m f content Hf (or_intror (conj Hs Hc)))
          as (t & E).
        rewrite E. destruct m, f; do 4 eexists; reflexivity.
      * rewrite (configure_denied m f e Hf Hs). apply Hm.
      * rewrite (configure_locked m f e Hf Hs). destruct (is_Exception e); apply Hm.
    + destruct (configure_unsupported m Hf) as (t & E). rewrite E. apply Hm.
  - destruct (configure_declined m) as (t & E). rewrite E. apply Hm.
Qed.

(** What the text [init] appends holds the export line. *)
Lemma rc_addition_holds_export (content : string) :
  contains url_export (content ++ rc_addition)%string = true.
Proof.
  apply contains_iff.
  exists (content ++ String LF ("# Added by Anthropic API Proxy" ++ String LF ""))%string,
         (String LF "").
  rewrite append_assoc. reflexivity.
Qed.

(** The part of a list of lines before its tail [t2]. *)
Ltac lines_before l t2 :=
  lazymatch l with
  | t2 => constr:(@nil Say)
  | ?x :: ?l' => let p := lines_before l' t2 in constr:(x :: p)
  end.

(** For a goal that compares a run ending in the shell configuration
    with the shell configuration on settings to be found: takes the
    settings of the run. *)
Ltac same_settings :=
  lazymatch goal with
  | |- ?L = ?R =>
      lazymatch L with
      | context [configure_shell _ (mkMachine _ _ _ _ _ (Some ?s0) _)] =>
          lazymatch R with
          | context [configure_shell _ (mkMachine _ _ _ _ _ (Some ?s1) _)] =>
              unify s1 s0
          end
      end
  end.

(** Then, whatever the shell configuration gives, the lines of the run
    are the lines before it followed by its own. *)
Ltac split_trace :=
  lazymatch goal with
  | |- context [configure_shell ?b ?M] =>
      destruct (configure_shell b M) as [[?r ?m2] ?t2]
  end;
  lazymatch goal with
  | |- (_, _, ?l) = (_, _, ?t ++ ?t2) =>
      let p := lines_before l t2 in unify t p
  end;
  reflexivity.

(** [init] is its questions about the settings, which leave the shell and
    the world alone, followed by the shell configuration. *)
Lemma init_steps (a : Answers) (m : Machine) :
  exists s t,
    (s "OPENAI_API_KEY"
     = Some (chosen_key (openai_key_input a) (stored m "OPENAI_API_KEY"))
     /\ s "GEMINI_API_KEY"
        = Some (chosen_key (gemini_key_input a) (stored m "GEMINI_API_KEY"))
     /\ s "PREFERRED_PROVIDER"
        = Some (chosen (provider_input a) (stored m "PREFERRED_PROVIDER") "openai")
     /\ s "BIG_MODEL"
        = Some (chosen (big_model_input a) (stored m "BIG_MODEL") "gpt-4.1")
     /\ s "SMALL_MODEL"
        = Some (chosen (small_model_input a) (stored m "SMALL_MODEL") "gpt-4.1-mini")
     /\ (forall k, ~ In k init_keys -> s k = stored m k))
    /\ init a m
       = match configure_shell (shell_confirm a) (set_settings (Some s) m) with
         | (r, m2, t2) => (r, m2, t ++ t2)
         end.
Proof.
  assert (Hother : forall (k : string) (v : string) (X Y : option string),
             k <> v -> (if String.eqb k v then X else Y) = Y).
  { intros k v X Y H. apply String.eqb_neq in H. now rewrite H. }
  unfold init, ask_api_key, stored, chosen, chosen_key.
  destruct m as [w sh h z b [f|] p]; trun.
  - eexists. eexists. split; [|same_settings; split_trace].
    cbn [String.eqb Ascii.eqb Bool.eqb].
    repeat split; try reflexivity.
    intros k Hk. unfold init_keys in Hk. cbn [In] in Hk.
    rewrite !Hother; [reflexivity | intuition congruence ..].
  - eexists. eexists. split; [|same_settings; split_trace].
    cbn [String.eqb Ascii.eqb Bool.eqb].
    repeat split; try reflexivity.
    intros k Hk. unfold init_keys in Hk. cbn [In] in Hk.
    rewrite !Hother; [reflexivity | intuition congruence ..].
Qed.


(** What the shell configuration does to a startup file. *)
Lemma configure_shell_rc (answer : bool) (m : Machine) (g : RcFile) :
  rc_state g (machine_of (configure_shell answer m))
  = if andb answer (is_rc_of (SHELL m) g) then with_export (rc_state g m)
    else rc_state g m.
Proof.
  unfold is_rc_of.
  destruct answer; cbn [andb].
  - destruct (rc_file_for (SHELL m)) as [f|] eqn:Hf.
    + destruct (rc_state_cases (rc_state f m))
        as [Hs|[(content & l & Hs & Hc)|[(content & Hs & Hc)|[(e & Hs)|(e & Hs)]]]].
      * destruct (configure_appends m f "" Hf (or_introl (conj Hs eq_refl))) as (t & E).
        rewrite E. destruct m, f, g; cbn in *; rewrite ?Hs; reflexivity.
      * destruct (configure_already m f content l Hf Hs Hc) as (t & E).
        rewrite E. destruct m, f, g, l; cbn in *; rewrite ?Hs; cbn; rewrite ?Hc; reflexivity.
      * destruct (configure_appends m f content Hf (or_intror (conj Hs Hc)))
          as (t & E).
        rewrite E. destruct m, f, g; cbn in *; rewrite ?Hs; cbn; rewrite ?Hc; reflexivity.
      * rewrite (configure_denied m f e Hf Hs).
        destruct m, f, g; cbn in *; rewrite ?Hs; reflexivity.
      * rewrite (configure_locked m f e Hf Hs).
        assert (Hw : with_export (rc_state f m) = rc_state f m)
          by (destruct Hs as [Hs|(content & Hs & Hc)]; now rewrite Hs).
        destruct (is_Exception e); destruct f, g; cbn [machine_of fst snd];
          now rewrite ?Hw.
    + destruct (configure_unsupported m Hf) as (t & E). now rewrite E.
  - destruct (configure_declined m) as (t & E). now rewrite E.
Qed.

(** What [init] does to a startup file, to the shell and to the world. *)
Lemma init_rc (a : Answers) (m : Machine) (g : RcFile) :
  rc_state g (machine_of (init a m))
  = (if andb (shell_confirm a) (is_rc_of (SHELL m) g) then with_export (rc_state g m)
     else rc_state g m)
  /\ SHELL (machine_of (init a m)) = SHELL m
  /\ home (machine_of (init a m)) = home m
  /\ world (machine_of (init a m)) = world m.
Proof.
  destruct (init_steps a m) as (s & t & _ & E). rewrite E.
  pose proof (configure_shell_rc (shell_confirm a) (set_settings (Some s) m) g) as Hrc.
  destruct (configure_shell_frame (shell_confirm a) (set_settings (Some s) m))
    as (r & z & b & t2 & E2).
  rewrite E2 in *. cbn [machine_of fst snd] in *.
  split; [|destruct m; repeat split].
  rewrite Hrc. destruct m, g; reflexivity.
Qed.

Lemma with_export_twice (st : RcState) : with_export (with_export st) = with_export st.
Proof.
  destruct st as [[e|]|content [e|]|e]; cbn [with_export]; try reflexivity.
  destruct (contains url_export content) eqn:Hc; cbn [with_export].
  - now rewrite Hc.
  - now rewrite rc_addition_holds_export.
Qed.

Lemma with_export_holds (st : RcState) :
  opens st = true ->
  exists content, with_export st = RcHolds content None
                  /\ contains url_export content = true.
Proof.
  intros H. destruct st as [[e|]|content [e|]|e]; try discriminate H; cbn [with_export].
  - exists rc_addition. split; reflexivity.
  - destruct (contains url_export content) eqn:Hc.
    + exists content. auto.
    + eexists. split; [reflexivity | apply rc_addition_holds_export].
Qed.


End HostFacts.

Module HostSpec.
Import PyStr PyStrFacts Cli Vocabulary MoreVocabulary CliFacts CliMoreFacts.
Import CliRest Host HostVocabulary HostFacts.
Local Open Scope list_scope.









Ltac clash H :=
  unfold found_line, not_found_line, unreadable_line, no_rc_line in H;
  cbn in H; destruct H as [H|H]; [discriminate H | contradiction].

(** X17: the shell check says "Found" exactly when the startup file of
    the user's shell (zsh first, then bash) is there and holds the
    export line somewhere in its text. *)
Theorem shell_check_finds_export (m : Machine) (f : RcFile) :
  In (found_line f) (said (check_anthropic_base_url_in_shell_config m))
  <-> rc_file_for (SHELL m) = Some f
      /\ exists content locked, rc_state f m = RcHolds content locked
                                /\ Substring url_export content.
Proof.
  split.
  - intros Hin.
    destruct (rc_file_for (SHELL m)) as [g|] eqn:Hf.
    + destruct (rc_state g m) as [l|content l|e] eqn:Hs.
      * rewrite (check_missing m g l Hf Hs) in Hin. clash Hin.
      * rewrite (check_holds m g content l Hf Hs) in Hin. cbn [said snd In] in Hin.
        destruct Hin as [Hin|Hin]; [|contradiction].
        destruct (contains url_export content) eqn:Hc.
        -- assert (g = f) by (destruct g, f; try reflexivity; discriminate).
           subst g. split; [reflexivity|]. exists content, l.
           split; [exact Hs | now apply contains_iff].
        -- destruct g, f; discriminate.
      * rewrite (check_denied m g e Hf Hs) in Hin.
        destruct (is_Exception e); [clash Hin | contradiction].
    + rewrite (check_unsupported m Hf) in Hin. clash Hin.
  - intros (Hf & content & l & Hs & Hsub).
    rewrite (check_holds m f content l Hf Hs).
    apply contains_iff in Hsub. rewrite Hsub. now left.
Qed.

Lemma shell_check_finds_export_witness :
  In (found_line ZSHRC)
     (said (check_anthropic_base_url_in_shell_config
              (set_rc_state ZSHRC (RcHolds url_export None) example_machine))).
Proof.
  apply (proj2 (shell_check_finds_export
                  (set_rc_state ZSHRC (RcHolds url_export None) example_machine) ZSHRC)).
  split; [reflexivity|]. exists url_export, None. split; [reflexivity|].
  apply contains_iff. reflexivity.
Defined.

(** X18: the command line without a command does what [ccp config]
    does: the shell check, then the status. *)
Theorem bare_command_is_config (m : Machine) :
  ccp None m = ccp (Some CmdConfig) m.
Proof.
  unfold ccp, main, config, tbind, tret. cbn [negb].
  destruct (check_anthropic_base_url_in_shell_config m) as [[[[]|e] m1] t1];
    [|reflexivity].
  destruct (lift status m1) as [[[[]|e] m2] t2]; now rewrite ?app_nil_r.
Qed.


(** X20: [init] adds the export line to the startup file of the shell
    at most once. When the user agrees and the file can be opened, the
    file holds the line afterwards, and a later [init], with any answers
    and whatever else changed on the machine, leaves the file exactly as
    the first run left it. *)
Theorem init_adds_export_once (a a' : Answers) (m m' : Machine) (f : RcFile) :
  shell_confirm a = true ->
  rc_file_for (SHELL m) = Some f ->
  opens (rc_state f m) = true ->
  SHELL m' = SHELL m ->
  rc_state f m' = rc_state f (machine_of (init a m)) ->
  exists content,
    rc_state f m' = RcHolds content None
    /\ Substring url_export content
    /\ rc_state f (machine_of (init a' m')) = RcHolds content None.
Proof.
  intros Hc Hf Hd Hsh' Hrc'.
  assert (Hrc : is_rc_of (SHELL m) f = true)
    by (unfold is_rc_of; rewrite Hf; now destruct f).
  destruct (init_rc a m f) as (E1 & _).
  rewrite Hc, Hrc in E1. cbn [andb] in E1.
  destruct (with_export_holds (rc_state f m) Hd) as (content & Hw & Hsub).
  exists content. rewrite Hrc', E1. split; [exact Hw|].
  split; [now apply contains_iff|].
  destruct (init_rc a' m' f) as (E2 & _).
  rewrite E2, Hsh', Hrc, Hrc', E1.
  destruct (shell_confirm a'); cbn [andb]; [|exact Hw].
  now rewrite with_export_twice.
Qed.

Lemma init_adds_export_once_witness :
  rc_state ZSHRC (machine_of (init example_answers example_machine))
  = RcHolds ("alias ll='ls -l'" ++ rc_addition)%string None
  /\ rc_state ZSHRC (machine_of (init example_answers
                                      (machine_of (init example_answers example_machine))))
     = RcHolds ("alias ll='ls -l'" ++ rc_addition)%string None.
Proof.
  destruct (init_adds_export_once example_answers example_answers example_machine
              (machine_of (init example_answers example_machine)) ZSHRC
              eq_refl eq_refl eq_refl eq_refl eq_refl) as (content & H1 & _ & H2).
  assert (E : RcHolds content None
              = RcHolds ("alias ll='ls -l'" ++ rc_addition)%string None)
    by (rewrite <- H1; reflexivity).
  rewrite H2, H1. now rewrite E.
Defined.



(** X22: [init] does not touch the record, the log or the processes of
    the supervisor, and of the startup files it can change only the one
    of the user's shell, and only when the user agrees: a file of
    another shell, and every file when the user declines or the shell is
    neither zsh nor bash, is as before. *)
Theorem init_frame (a : Answers) (m : Machine) (g : RcFile) :
  same_supervision (world (machine_of (init a m))) (world m)
  /\ (shell_confirm a = false \/ rc_file_for (SHELL m) <> Some g ->
      rc_state g (machine_of (init a m)) = rc_state g m).
Proof.
  destruct (init_rc a m g) as (E1 & _ & _ & Hw).
  split; [rewrite Hw; repeat split|]. intros H. rewrite E1.
  destruct H as [->|H]; [reflexivity|].
  unfold is_rc_of.
  destruct (rc_file_for (SHELL m)) as [[|]|], g;
    rewrite ?Bool.andb_false_r; try reflexivity; now elim H.
Qed.

Lemma init_frame_witness :
  rc_file_for (SHELL example_machine) <> Some BASHRC
  /\ rc_state BASHRC (machine_of (init example_answers example_machine)) = RcMissing None.
Proof.
  split; [discriminate|].
  apply (proj2 (init_frame example_answers example_machine BASHRC)).
  right. discriminate.
Defined.







End HostSpec.

(** ** The alias resolver: further properties *)

Module McpMoreSpec.
Import PyStr PyStrFacts McpServer Vocabulary McpServerSpec.

(** X26: the preferred provider is read without regard to case, and
    every value that is not "google" in some casing (also no value at all,
    the empty text, a misspelling) selects openai: for an alias with a
    marker, the resolved name starts with "gemini/" when the lower-cased
    setting is "google", and with "openai/" otherwise. *)
Theorem provider_setting_is_case_insensitive (env : Environ) (model_alias : string) :
  Substring "haiku" (lower model_alias) \/ Substring "sonnet" (lower model_alias) ->
  (lower (environ_get env "PREFERRED_PROVIDER" "openai") = "google" ->
   startswith "gemini/" (get_mapped_model (load_config env) model_alias) = true)
  /\ (lower (environ_get env "PREFERRED_PROVIDER" "openai") <> "google" ->
      startswith "openai/" (get_mapped_model (load_config env) model_alias) = true).
Proof.
  intros Hm.
  assert (E : exists name,
             get_mapped_model (load_config env) model_alias
             = (if String.eqb (lower (environ_get env "PREFERRED_PROVIDER" "openai"))
                              "google"
                then "gemini/" ++ name else "openai/" ++ name)).
  { unfold get_mapped_model. cbn [PREFERRED_PROVIDER load_config SMALL_MODEL BIG_MODEL].
    destruct (contains "haiku" (lower model_alias)) eqn:H1.
    - eexists. destruct (String.eqb _ _); reflexivity.
    - destruct (contains "sonnet" (lower model_alias)) eqn:H2.
      + eexists. destruct (String.eqb _ _); reflexivity.
      + exfalso. apply contains_false_iff in H1, H2. tauto. }
  destruct E as (name & E). rewrite E.
  destruct (String.eqb_spec (lower (environ_get env "PREFERRED_PROVIDER" "openai"))
                            "google") as [Hg|Hg].
  - split; [intros _ | contradiction].
    apply startswith_iff. now exists name.
  - split; [contradiction | intros _].
    apply startswith_iff. now exists name.
Qed.

Lemma provider_setting_is_case_insensitive_witness :
  get_mapped_model
    (load_config (fun k => if String.eqb k "PREFERRED_PROVIDER" then Some "GOOGLE" else None))
    "haiku" = "gemini/gpt-4.1-mini"
  /\ startswith "openai/"
       (get_mapped_model
          (load_config (fun k => if String.eqb k "PREFERRED_PROVIDER"
                                 then Some "gogle" else None))
          "sonnet") = true.
Proof.
  split; [reflexivity|].
  apply (proj2 (provider_setting_is_case_insensitive
                  (fun k => if String.eqb k "PREFERRED_PROVIDER" then Some "gogle" else None)
                  "sonnet" (or_intror (ex_intro _ "" (ex_intro _ "" eq_refl))))).
  discriminate.
Defined.

Lemma marker_after_prefix (s : string) :
  contains "haiku" (lower ("openai/" ++ s)) = contains "haiku" (lower s)
  /\ contains "haiku" (lower ("gemini/" ++ s)) = contains "haiku" (lower s)
  /\ contains "sonnet" (lower ("openai/" ++ s)) = contains "sonnet" (lower s)
  /\ contains "sonnet" (lower ("gemini/" ++ s)) = contains "sonnet" (lower s).
Proof. repeat split. Qed.

(** X27: resolving is idempotent as long as the configured model names
    do not themselves trigger the other mapping: when the big model's
    name holds no 'haiku', and the small model's name holds 'sonnet' only
    together with 'haiku', a resolved name resolves to itself. *)
Theorem resolving_twice (cfg : Config) (model_alias : string) :
  is_ascii model_alias = true ->
  is_ascii (BIG_MODEL cfg) = true ->
  is_ascii (SMALL_MODEL cfg) = true ->
  ~ Substring "haiku" (lower (BIG_MODEL cfg)) ->
  (Substring "sonnet" (lower (SMALL_MODEL cfg)) ->
   Substring "haiku" (lower (SMALL_MODEL cfg))) ->
  get_mapped_model cfg (get_mapped_model cfg model_alias)
  = get_mapped_model cfg model_alias.
Proof.
  intros _ _ _ Hb Hs.
  apply contains_false_iff in Hb.
  assert (Hsmall : contains "haiku" (lower (SMALL_MODEL cfg)) = true
                   \/ (contains "haiku" (lower (SMALL_MODEL cfg)) = false
                       /\ contains "sonnet" (lower (SMALL_MODEL cfg)) = false)).
  { destruct (contains "haiku" (lower (SMALL_MODEL cfg))) eqn:Hh; [now left|right].
    split; [reflexivity|]. apply contains_false_iff. intros H'.
    apply Hs, contains_iff in H'. congruence. }
  destruct (marker_after_prefix (BIG_MODEL cfg)) as (B1 & B2 & B3 & B4).
  destruct (marker_after_prefix (SMALL_MODEL cfg)) as (S1 & S2 & S3 & S4).
  unfold get_mapped_model at 2.
  destruct (contains "haiku" (lower model_alias)) eqn:H1;
    [|destruct (contains "sonnet" (lower model_alias)) eqn:H2].
  - destruct (String.eqb (PREFERRED_PROVIDER cfg) "google") eqn:Hp;
      unfold get_mapped_model; rewrite ?S1, ?S2, ?S3, ?S4, Hp, H1;
      (destruct Hsmall as [Hh|[Hh Hn]]; rewrite Hh; [reflexivity | now rewrite Hn]).
  - destruct (String.eqb (PREFERRED_PROVIDER cfg) "google") eqn:Hp;
      unfold get_mapped_model; rewrite ?B1, ?B2, ?B3, ?B4, Hb, Hp, H1, H2;
      now destruct (contains "sonnet" (lower (BIG_MODEL cfg))).
  - unfold get_mapped_model. now rewrite H1, H2.
Qed.

Lemma resolving_twice_witness :
  get_mapped_model default_config (get_mapped_model default_config "claude-3-haiku")
  = "openai/gpt-4.1-mini".
Proof.
  rewrite (resolving_twice default_config "claude-3-haiku").
  - reflexivity.
  - reflexivity.
  - reflexivity.
  - reflexivity.
  - apply contains_false_iff. reflexivity.
  - intros H. apply contains_iff in H. discriminate H.
Defined.

End McpMoreSpec.
